(** * Normative types over pvData: builders, compatibility predicates, wrappers

    A shallow embedding of [ntscalarMultiChannel.cpp], [ntndarray.cpp] and the
    typed column accessor of [nttable.h], together with the properties of the
    builders ([createStructure], [reset]), of the compatibility predicates
    ([isCompatible], [is_compatible], [is_a]) and of the wrapping factories
    ([wrap], [wrapUnsafe], [narrow], [narrow_unsafe]).

    Shared pointers are options ([None] is the null pointer), a call through
    a null pointer is the outcome [NullDereference], and the exception the
    field factory raises is the outcome [InvalidArgument]. *)

From Stdlib Require Import ZArith Lia.
From stdpp Require Import base list strings.

Local Open Scope string_scope.
Local Open Scope list_scope.

(** ** The introspection interface of pvData *)

Inductive ScalarType : Type :=
  | pvBoolean | pvByte | pvShort | pvInt | pvLong
  | pvUByte | pvUShort | pvUInt | pvULong
  | pvFloat | pvDouble | pvString.

Global Instance ScalarType_eq_dec : EqDecision ScalarType.
Proof. solve_decision. Defined.

(** Modelled from the spec: the type descriptors of the framework ("scalar
    arrays, nested structures, tagged unions, arrays of structures"), a
    schema being "an ordered mapping from field name to field type
    descriptor ... identified by a URI-like string tag". *)
#[warnings="-register-all"]
Inductive Field : Type :=
  | Scalar (scalarType : ScalarType)
  | ScalarArray (elementType : ScalarType)
  | StructureField (s : Structure)
  | StructureArray (element : Structure)
  | Union (id : string) (members : list (string * Field))
  | UnionArray (id : string) (members : list (string * Field))
with Structure : Type :=
  | mkStructure (id : string) (members : list (string * Field)).

Definition getID (s : Structure) : string :=
  match s with mkStructure id _ => id end.

Definition getMembers (s : Structure) : list (string * Field) :=
  match s with mkStructure _ members => members end.

(** [FieldConstPtr], [StructureConstPtr]: shared pointers, possibly null. *)
Definition FieldConstPtr : Type := option Field.
Definition StructureConstPtr : Type := option Structure.

(** What a call can do besides returning. *)
Inductive outcome (A : Type) : Type :=
  | Ret (a : A)
  | InvalidArgument
  | NullDereference.
Arguments Ret {A} a.
Arguments InvalidArgument {A}.
Arguments NullDereference {A}.

Definition returned {A} (o : outcome A) : Prop := exists a, o = Ret a.

(** Modelled from the spec: name lookup in a schema ("get sub-field by
    name ... returns empty on mismatch/absence"); the first field of that
    name is the one found. *)
Fixpoint lookup_field (name : string) (members : list (string * Field))
  : FieldConstPtr :=
  match members with
  | [] => None
  | (n, f) :: rest => if String.eqb n name then Some f else lookup_field name rest
  end.

(** [Structure::getField(name)]. *)
Definition getField (s : Structure) (name : string) : FieldConstPtr :=
  lookup_field name (getMembers s).

(** [dynamic_pointer_cast<const ScalarArray>]: the handle is represented by
    the element type [getElementType()] reads from it. *)
Definition as_ScalarArray (p : FieldConstPtr) : option ScalarType :=
  match p with
  | Some (ScalarArray t) => Some t
  | _ => None
  end.

(** [dynamic_pointer_cast<const Scalar>], read by [getScalarType()]. *)
Definition as_Scalar (p : FieldConstPtr) : option ScalarType :=
  match p with
  | Some (Scalar t) => Some t
  | _ => None
  end.

(** [Structure::getField<ScalarArray>(name)] and [getField<Scalar>(name)]. *)
Definition getField_ScalarArray (s : Structure) (name : string) : option ScalarType :=
  as_ScalarArray (getField s name).

Definition getField_Scalar (s : Structure) (name : string) : option ScalarType :=
  as_Scalar (getField s name).

(** [s != t] on scalar type tags. *)
Definition ScalarType_neq (s t : ScalarType) : bool := negb (bool_decide (s = t)).

(** Modelled from the spec: the field factory's [createStructure(id, names,
    fields)], which "constructs an immutable Schema tagged with" the id from
    the two parallel arrays; a null field type is "propagated as an
    invalid-argument failure at construction time".  Names are paired with
    fields position by position.  What the factory does with a repeated or
    an empty name is left open there: the pairing keeps such entries, and
    the properties below that describe the members of a created schema
    are stated for field names that are distinct and not empty
    ([well_named]). *)
Fixpoint pair_fields (names : list string) (fields : list FieldConstPtr)
  : option (list (string * Field)) :=
  match names, fields with
  | [], [] => Some []
  | n :: names', Some f :: fields' =>
      match pair_fields names' fields' with
      | Some rest => Some ((n, f) :: rest)
      | None => None
      end
  | _, _ => None
  end.

Definition FieldCreate_createStructure
    (id : string) (names : list string) (fields : list FieldConstPtr)
  : outcome Structure :=
  match pair_fields names fields with
  | Some members => Ret (mkStructure id members)
  | None => InvalidArgument
  end.

(** Modelled from the spec: the "library of standard reusable sub-schemas
    (alarm, timestamp, display, control)" of the framework.  Their contents
    are not fixed here: every definition below takes them as given. *)
Module StandardField.
Record t : Type := Build {
  alarm : Structure;
  timeStamp : Structure;
  display : Structure
}.
End StandardField.

(** Modelled from the spec: the "predicates to test whether an arbitrary
    field conforms to one of those standard shapes" ([NTField::isAlarm],
    [isTimeStamp], [isDisplay]), taken as given. *)
Module NTField.
Record t : Type := Build {
  isAlarm : Field -> bool;
  isTimeStamp : Field -> bool;
  isDisplay : Field -> bool
}.
End NTField.

(** ** The value interface of pvData *)

(** Modelled from the spec: a "structured value instance ... conforming to
    exactly one Schema".  None of the functions below reads or writes a
    field value, so an instance is represented by the schema it carries and
    a sub-field handle by the type descriptor of the sub-field. *)
Record PVStructure : Type := mkPVStructure {
  getStructure : Structure
}.

Definition PVStructurePtr : Type := option PVStructure.

Definition PVField : Type := Field.
Definition PVFieldPtr : Type := option PVField.

(** [PVDataCreate::createPVStructure(structure)]. *)
Definition PVDataCreate_createPVStructure (s : Structure) : PVStructure :=
  mkPVStructure s.

(** The classes of the value hierarchy a sub-field handle can be cast to:
    [PVField] at the root, [PVScalar] above each [PVScalarValue<T>]
    ([PVBoolean] ... [PVString]), [PVArray] above [PVScalarArray] (itself
    above each [PVValueArray<T>]), [PVStructureArray] and [PVUnionArray]. *)
Inductive PVClass : Type :=
  | PVField_c
  | PVScalar_c
  | PVScalarValue (T : ScalarType)
  | PVArray_c
  | PVScalarArray_c
  | PVValueArray (T : ScalarType)
  | PVStructure_c
  | PVStructureArray_c
  | PVUnion_c
  | PVUnionArray_c.

Definition PVString : PVClass := PVScalarValue pvString.
Definition PVLong : PVClass := PVScalarValue pvLong.
Definition PVInt : PVClass := PVScalarValue pvInt.
Definition PVBooleanArray : PVClass := PVValueArray pvBoolean.
Definition PVIntArray : PVClass := PVValueArray pvInt.
Definition PVLongArray : PVClass := PVValueArray pvLong.
Definition PVStringArray : PVClass := PVValueArray pvString.

(** The dynamic class of the value object allocated for a type descriptor. *)
Definition runtime_class (f : PVField) : PVClass :=
  match f with
  | Scalar t => PVScalarValue t
  | ScalarArray t => PVValueArray t
  | StructureField _ => PVStructure_c
  | StructureArray _ => PVStructureArray_c
  | Union _ _ => PVUnion_c
  | UnionArray _ _ => PVUnionArray_c
  end.

(** [derived_from c d]: class [c] is [d] or derives from it. *)
Definition derived_from (c d : PVClass) : bool :=
  match d, c with
  | PVField_c, _ => true
  | PVScalar_c, (PVScalar_c | PVScalarValue _) => true
  | PVScalarValue T, PVScalarValue U => bool_decide (T = U)
  | PVArray_c, (PVArray_c | PVScalarArray_c | PVValueArray _
               | PVStructureArray_c | PVUnionArray_c) => true
  | PVScalarArray_c, (PVScalarArray_c | PVValueArray _) => true
  | PVValueArray T, PVValueArray U => bool_decide (T = U)
  | PVStructure_c, PVStructure_c => true
  | PVStructureArray_c, PVStructureArray_c => true
  | PVUnion_c, PVUnion_c => true
  | PVUnionArray_c, PVUnionArray_c => true
  | _, _ => false
  end.

(** [std::tr1::dynamic_pointer_cast<PVT>(p)]. *)
Definition dynamic_pointer_cast (PVT : PVClass) (p : PVFieldPtr) : PVFieldPtr :=
  match p with
  | Some f => if derived_from (runtime_class f) PVT then Some f else None
  | None => None
  end.

(** [PVStructure::getSubField(name)] and [getSubField<PVT>(name)], for the
    undotted names used here. *)
Definition getSubField (pv : PVStructure) (name : string) : PVFieldPtr :=
  getField (getStructure pv) name.

Definition getSubField_as (PVT : PVClass) (pv : PVStructure) (name : string)
  : PVFieldPtr :=
  dynamic_pointer_cast PVT (getSubField pv name).

(** A handle is tested by its conversion to [bool]. *)
Definition is_null {A} (p : option A) : bool :=
  match p with Some _ => false | None => true end.

(** ** [ntscalarMultiChannel.cpp]: the builder *)

Module NTScalarMultiChannelBuilder.

(** The member variables of [detail::NTScalarMultiChannelBuilder]. *)
Record t : Type := Build {
  valueType : ScalarType;
  descriptor : bool;
  alarm : bool;
  timeStamp : bool;
  severity : bool;
  status : bool;
  message : bool;
  secondsPastEpoch : bool;
  nanoseconds : bool;
  userTag : bool;
  isConnected : bool;
  extraFieldNames : list string;
  extraFields : list FieldConstPtr
}.

Definition URI : string := "epics:nt/NTScalarMultiChannel:1.0".

(** The fluent setters; [shared_from_this()] is the updated builder. *)
Definition value (scalarType : ScalarType) (b : t) : t :=
  Build scalarType (descriptor b) (alarm b) (timeStamp b) (severity b)
    (status b) (message b) (secondsPastEpoch b) (nanoseconds b) (userTag b)
    (isConnected b) (extraFieldNames b) (extraFields b).

Definition addDescriptor (b : t) : t :=
  Build (valueType b) true (alarm b) (timeStamp b) (severity b)
    (status b) (message b) (secondsPastEpoch b) (nanoseconds b) (userTag b)
    (isConnected b) (extraFieldNames b) (extraFields b).

Definition addAlarm (b : t) : t :=
  Build (valueType b) (descriptor b) true (timeStamp b) (severity b)
    (status b) (message b) (secondsPastEpoch b) (nanoseconds b) (userTag b)
    (isConnected b) (extraFieldNames b) (extraFields b).

Definition addTimeStamp (b : t) : t :=
  Build (valueType b) (descriptor b) (alarm b) true (severity b)
    (status b) (message b) (secondsPastEpoch b) (nanoseconds b) (userTag b)
    (isConnected b) (extraFieldNames b) (extraFields b).

Definition addSeverity (b : t) : t :=
  Build (valueType b) (descriptor b) (alarm b) (timeStamp b) true
    (status b) (message b) (secondsPastEpoch b) (nanoseconds b) (userTag b)
    (isConnected b) (extraFieldNames b) (extraFields b).

Definition addStatus (b : t) : t :=
  Build (valueType b) (descriptor b) (alarm b) (timeStamp b) (severity b)
    true (message b) (secondsPastEpoch b) (nanoseconds b) (userTag b)
    (isConnected b) (extraFieldNames b) (extraFields b).

Definition addMessage (b : t) : t :=
  Build (valueType b) (descriptor b) (alarm b) (timeStamp b) (severity b)
    (status b) true (secondsPastEpoch b) (nanoseconds b) (userTag b)
    (isConnected b) (extraFieldNames b) (extraFields b).

Definition addSecondsPastEpoch (b : t) : t :=
  Build (valueType b) (descriptor b) (alarm b) (timeStamp b) (severity b)
    (status b) (message b) true (nanoseconds b) (userTag b)
    (isConnected b) (extraFieldNames b) (extraFields b).

Definition addNanoseconds (b : t) : t :=
  Build (valueType b) (descriptor b) (alarm b) (timeStamp b) (severity b)
    (status b) (message b) (secondsPastEpoch b) true (userTag b)
    (isConnected b) (extraFieldNames b) (extraFields b).

Definition addUserTag (b : t) : t :=
  Build (valueType b) (descriptor b) (alarm b) (timeStamp b) (severity b)
    (status b) (message b) (secondsPastEpoch b) (nanoseconds b) true
    (isConnected b) (extraFieldNames b) (extraFields b).

Definition addIsConnected (b : t) : t :=
  Build (valueType b) (descriptor b) (alarm b) (timeStamp b) (severity b)
    (status b) (message b) (secondsPastEpoch b) (nanoseconds b) (userTag b)
    true (extraFieldNames b) (extraFields b).

(** [add(name, field)]: one [push_back] on each of the parallel vectors. *)
Definition add (name : string) (field : FieldConstPtr) (b : t) : t :=
  Build (valueType b) (descriptor b) (alarm b) (timeStamp b) (severity b)
    (status b) (message b) (secondsPastEpoch b) (nanoseconds b) (userTag b)
    (isConnected b) (extraFieldNames b ++ [name]) (extraFields b ++ [field]).

(** [reset()]: the vectors are cleared and every member reassigned; the
    connection flag is the one set to [true]. *)
Definition reset (b : t) : t :=
  Build pvDouble false false false false false false false false false
    true [] [].

(** The constructor: [valueType(pvDouble)], then [reset()]. *)
Definition new : t :=
  reset (Build pvDouble false false false false false false false false
           false false [] []).

(** The state of [createStructure] while it fills [names] and [fields]:
    the two arrays and the index [ind]. *)
Record arrays : Type := Arrays {
  names : list string;
  fields : list FieldConstPtr;
  ind : nat
}.

(** [names[ind] = name; fields[ind++] = field;]  A store past the end of
    a vector leaves it as it is here; [createStructure] sizes the vectors
    so that none happens. *)
Definition put (name : string) (field : FieldConstPtr) (a : arrays) : arrays :=
  Arrays (<[ind a := name]> (names a)) (<[ind a := field]> (fields a))
         (S (ind a)).

(** [if(flag) { names[ind] = name; fields[ind++] = field; }] *)
Definition put_if (flag : bool) (name : string) (field : FieldConstPtr)
    (a : arrays) : arrays :=
  if flag then put name field a else a.

(** [if(flag) ++nfields;] *)
Definition incr_if (flag : bool) (nfields : nat) : nat :=
  if flag then S nfields else nfields.

(** [for (size_t i = 0; i < extraCount; i++) { names[ind] =
    extraFieldNames[i]; fields[ind++] = extraFields[i]; }], with [n] the
    iterations that remain.  Reading past the end of a vector yields the
    default element here; the two vectors grow together in [add], so no
    such read happens. *)
Fixpoint copy_extra (n i : nat) (b : t) (a : arrays) : arrays :=
  match n with
  | O => a
  | S n' =>
      copy_extra n' (S i) b
        (put (extraFieldNames b !!! i) (extraFields b !!! i) a)
  end.

Section WithStandardField.
Variable standardField : StandardField.t.

(** The two arrays as they are handed to the field factory. *)
Definition fill (b : t) : arrays :=
  let nfields := 2 in
  let extraCount := length (extraFieldNames b) in
  let nfields := nfields + extraCount in
  let nfields := incr_if (descriptor b) nfields in
  let nfields := incr_if (alarm b) nfields in
  let nfields := incr_if (timeStamp b) nfields in
  let nfields := incr_if (severity b) nfields in
  let nfields := incr_if (status b) nfields in
  let nfields := incr_if (message b) nfields in
  let nfields := incr_if (secondsPastEpoch b) nfields in
  let nfields := incr_if (nanoseconds b) nfields in
  let nfields := incr_if (userTag b) nfields in
  let nfields := incr_if (isConnected b) nfields in
  let a := Arrays (replicate nfields "") (replicate nfields None) 0 in
  let a := put "value" (Some (ScalarArray (valueType b))) a in
  let a := put "channelName" (Some (ScalarArray pvString)) a in
  let a := put_if (descriptor b) "descriptor" (Some (Scalar pvString)) a in
  let a := put_if (alarm b) "alarm"
             (Some (StructureField (StandardField.alarm standardField))) a in
  let a := put_if (timeStamp b) "timeStamp"
             (Some (StructureField (StandardField.timeStamp standardField))) a in
  let a := put_if (severity b) "severity" (Some (ScalarArray pvInt)) a in
  let a := put_if (status b) "status" (Some (ScalarArray pvInt)) a in
  let a := put_if (message b) "message" (Some (ScalarArray pvString)) a in
  let a := put_if (secondsPastEpoch b) "secondsPastEpoch"
             (Some (ScalarArray pvLong)) a in
  let a := put_if (nanoseconds b) "nanoseconds" (Some (ScalarArray pvInt)) a in
  let a := put_if (userTag b) "userTag" (Some (ScalarArray pvInt)) a in
  let a := put_if (isConnected b) "isConnected"
             (Some (ScalarArray pvBoolean)) a in
  copy_extra extraCount 0 b a.

(** [createStructure()]: the result and the builder afterwards.  When
    the factory throws, [reset()] is not reached. *)
Definition createStructure (b : t) : outcome Structure * t :=
  let a := fill b in
  match FieldCreate_createStructure URI (names a) (fields a) with
  | Ret st => (Ret st, reset b)
  | InvalidArgument => (InvalidArgument, b)
  | NullDereference => (NullDereference, b)
  end.

(** [createPVStructure()]. *)
Definition createPVStructure (b : t) : outcome PVStructure * t :=
  match createStructure b with
  | (Ret st, b') => (Ret (PVDataCreate_createPVStructure st), b')
  | (InvalidArgument, b') => (InvalidArgument, b')
  | (NullDereference, b') => (NullDereference, b')
  end.
End WithStandardField.

(** A configuration: the calls made on a builder before it creates. *)
Inductive call : Type :=
  | Value (scalarType : ScalarType)
  | AddDescriptor | AddAlarm | AddTimeStamp | AddSeverity | AddStatus
  | AddMessage | AddSecondsPastEpoch | AddNanoseconds | AddUserTag
  | AddIsConnected
  | Add (name : string) (field : FieldConstPtr).

Definition invoke (c : call) : t -> t :=
  match c with
  | Value scalarType => value scalarType
  | AddDescriptor => addDescriptor
  | AddAlarm => addAlarm
  | AddTimeStamp => addTimeStamp
  | AddSeverity => addSeverity
  | AddStatus => addStatus
  | AddMessage => addMessage
  | AddSecondsPastEpoch => addSecondsPastEpoch
  | AddNanoseconds => addNanoseconds
  | AddUserTag => addUserTag
  | AddIsConnected => addIsConnected
  | Add name field => add name field
  end.

Fixpoint configure (cs : list call) (b : t) : t :=
  match cs with
  | [] => b
  | c :: cs' => configure cs' (invoke c b)
  end.

End NTScalarMultiChannelBuilder.

(** ** [ntscalarMultiChannel.cpp]: the compatibility predicate and the wrapper *)

Module NTScalarMultiChannel.

Definition URI : string := NTScalarMultiChannelBuilder.URI.

(** The wrapper: the instance and the sub-field handles the constructor
    resolves once. *)
Record t : Type := Build {
  pvNTScalarMultiChannel : PVStructurePtr;
  pvTimeStamp : PVFieldPtr;
  pvAlarm : PVFieldPtr;
  pvValue : PVFieldPtr;
  pvChannelName : PVFieldPtr;
  pvIsConnected : PVFieldPtr;
  pvSeverity : PVFieldPtr;
  pvStatus : PVFieldPtr;
  pvMessage : PVFieldPtr;
  pvSecondsPastEpoch : PVFieldPtr;
  pvNanoseconds : PVFieldPtr;
  pvUserTag : PVFieldPtr;
  pvDescriptor : PVFieldPtr
}.

Definition shared_pointer : Type := option t.

(** [!p.get() || p->getElementType() != expected] *)
Definition null_or_other (p : option ScalarType) (expected : ScalarType) : bool :=
  match p with
  | None => true
  | Some found => ScalarType_neq found expected
  end.

Section WithNTField.
Variable ntField : NTField.t.

(** [isCompatible(StructureConstPtr const &)] *)
Definition isCompatible (structure : StructureConstPtr) : bool :=
  match structure with
  | None => false
  | Some s =>
    let valueField := getField_ScalarArray s "value" in
    if is_null valueField then false else
    let channelNameField := getField_ScalarArray s "channelName" in
    match channelNameField with
    | None => false
    | Some elementType =>
      if ScalarType_neq elementType pvString then false else
      let field := getField s "severity" in
      if negb (is_null field)
         && null_or_other (getField_ScalarArray s "severity") pvInt
      then false else
      let field := getField s "status" in
      if negb (is_null field)
         && null_or_other (getField_ScalarArray s "status") pvInt
      then false else
      let field := getField s "message" in
      if negb (is_null field)
         && null_or_other (getField_ScalarArray s "message") pvString
      then false else
      let field := getField s "secondsPastEpoch" in
      if negb (is_null field)
         && null_or_other (getField_ScalarArray s "secondsPastEpoch") pvLong
      then false else
      let field := getField s "nanoseconds" in
      if negb (is_null field)
         && null_or_other (getField_ScalarArray s "nanoseconds") pvInt
      then false else
      let field := getField s "userTag" in
      if negb (is_null field)
         && null_or_other (getField_ScalarArray s "userTag") pvInt
      then false else
      let field := getField s "descriptor" in
      if negb (is_null field)
         && null_or_other (getField_Scalar s "descriptor") pvString
      then false else
      let field := getField s "alarm" in
      if match field with
         | Some f => negb (NTField.isAlarm ntField f)
         | None => false
         end
      then false else
      let field := getField s "timeStamp" in
      if match field with
         | Some f => negb (NTField.isTimeStamp ntField f)
         | None => false
         end
      then false else
      true
    end
  end.

(** [isCompatible(PVStructurePtr const &)] *)
Definition isCompatible_pv (pvStructure : PVStructurePtr) : bool :=
  match pvStructure with
  | None => false
  | Some pv => isCompatible (Some (getStructure pv))
  end.

(** The constructor; it calls through its argument. *)
Definition construct (pvStructure : PVStructurePtr) : outcome t :=
  match pvStructure with
  | None => NullDereference
  | Some pv =>
      Ret (Build pvStructure
             (getSubField_as PVStructure_c pv "timeStamp")
             (getSubField_as PVStructure_c pv "alarm")
             (getSubField_as PVScalarArray_c pv "value")
             (getSubField_as PVStringArray pv "channelName")
             (getSubField_as PVBooleanArray pv "isConnected")
             (getSubField_as PVIntArray pv "severity")
             (getSubField_as PVIntArray pv "status")
             (getSubField_as PVStringArray pv "message")
             (getSubField_as PVLongArray pv "secondsPastEpoch")
             (getSubField_as PVIntArray pv "nanoseconds")
             (getSubField_as PVIntArray pv "userTag")
             (getSubField_as PVString pv "descriptor"))
  end.

(** [wrapUnsafe]: [shared_pointer(new NTScalarMultiChannel(structure))] *)
Definition wrapUnsafe (structure : PVStructurePtr) : outcome shared_pointer :=
  match construct structure with
  | Ret w => Ret (Some w)
  | InvalidArgument => InvalidArgument
  | NullDereference => NullDereference
  end.

(** [wrap] *)
Definition wrap (structure : PVStructurePtr) : outcome shared_pointer :=
  if negb (isCompatible_pv structure) then Ret None
  else wrapUnsafe structure.
End WithNTField.

(** [NTScalarMultiChannelBuilder::create()] *)
Definition create (standardField : StandardField.t)
    (b : NTScalarMultiChannelBuilder.t)
  : outcome shared_pointer * NTScalarMultiChannelBuilder.t :=
  match NTScalarMultiChannelBuilder.createPVStructure standardField b with
  | (Ret pv, b') =>
      (match construct (Some pv) with
       | Ret w => Ret (Some w)
       | InvalidArgument => InvalidArgument
       | NullDereference => NullDereference
       end, b')
  | (InvalidArgument, b') => (InvalidArgument, b')
  | (NullDereference, b') => (NullDereference, b')
  end.

(** [attachTimeStamp(PVTimeStamp &pv)] and [attachAlarm(PVAlarm &pv)]:
    [attach] is the verdict of the helper object's [attach], defined in
    the framework. *)
Definition attachTimeStamp (attach : PVField -> bool) (w : t) : bool :=
  match pvTimeStamp w with
  | Some ts => attach ts
  | None => false
  end.

Definition attachAlarm (attach : PVField -> bool) (w : t) : bool :=
  match pvAlarm w with
  | Some al => attach al
  | None => false
  end.

End NTScalarMultiChannel.

(** ** The field builder of pvData *)

(** Modelled from the spec: the names the framework gives to scalar types
    and to unions built without an id ([ScalarTypeFunc::name], the default
    union id, the id of the variant union), taken as given. *)
Module Naming.
Record t : Type := Build {
  ScalarTypeFunc_name : ScalarType -> string;
  Union_DEFAULT_ID : string;
  Union_ANY_ID : string;
  Structure_DEFAULT_ID : string
}.
End Naming.

Definition bind {A B} (m : outcome A) (k : A -> outcome B) : outcome B :=
  match m with
  | Ret a => k a
  | InvalidArgument => InvalidArgument
  | NullDereference => NullDereference
  end.

Notation "'let!' p ':=' m 'in' k" := (bind m (fun p => k))
  (at level 10, p pattern, m at level 200, k at level 200).

(** Modelled from the spec: the "field/structure factory (create scalar,
    scalar-array, union, variant-union, nested-structure, structure-array
    field descriptors)" in its builder form: fields accumulate in call
    order, and creating a union or a structure hands them to the factory
    and empties the builder. *)
Module FieldBuilder.
Record t : Type := Build {
  id : string;
  idSet : bool;
  fieldNames : list string;
  fields : list FieldConstPtr
}.

Definition new : t := Build "" false [] [].

Definition setId (i : string) (fb : t) : t :=
  Build i true (fieldNames fb) (fields fb).

Definition add (name : string) (field : FieldConstPtr) (fb : t) : t :=
  Build (id fb) (idSet fb) (fieldNames fb ++ [name]) (fields fb ++ [field]).

Definition add_scalar (name : string) (scalarType : ScalarType) (fb : t) : t :=
  add name (Some (Scalar scalarType)) fb.

Definition addArray_scalar (name : string) (scalarType : ScalarType) (fb : t) : t :=
  add name (Some (ScalarArray scalarType)) fb.

Definition addArray_structure (name : string) (element : Structure) (fb : t) : t :=
  add name (Some (StructureArray element)) fb.

Section WithNaming.
Variable naming : Naming.t.

Definition createVariantUnion : Field :=
  Union (Naming.Union_ANY_ID naming) [].

Definition createUnion (fb : t) : outcome (Field * t) :=
  match fieldNames fb with
  | [] => Ret (createVariantUnion, new)
  | _ =>
      match pair_fields (fieldNames fb) (fields fb) with
      | Some members =>
          Ret (Union (if idSet fb then id fb
                      else Naming.Union_DEFAULT_ID naming) members, new)
      | None => InvalidArgument
      end
  end.

Definition createStructure (fb : t) : outcome (Structure * t) :=
  let! st := FieldCreate_createStructure
               (if idSet fb then id fb else Naming.Structure_DEFAULT_ID naming)
               (fieldNames fb) (fields fb) in
  Ret (st, new).
End WithNaming.
End FieldBuilder.

(** The scalar type tags as the integers of the enumeration. *)
Definition ScalarType_to_nat (s : ScalarType) : nat :=
  match s with
  | pvBoolean => 0 | pvByte => 1 | pvShort => 2 | pvInt => 3 | pvLong => 4
  | pvUByte => 5 | pvUShort => 6 | pvUInt => 7 | pvULong => 8
  | pvFloat => 9 | pvDouble => 10 | pvString => 11
  end.

(** [static_cast<ScalarType>(i)]; only tags below [pvString] are cast. *)
Definition ScalarType_of_nat (i : nat) : ScalarType :=
  match i with
  | 0 => pvBoolean | 1 => pvByte | 2 => pvShort | 3 => pvInt | 4 => pvLong
  | 5 => pvUByte | 6 => pvUShort | 7 => pvUInt | 8 => pvULong
  | 9 => pvFloat | 10 => pvDouble | _ => pvString
  end.

(** ** [ntndarray.cpp]: the builder *)

Module NTNDArrayBuilder.

Record t : Type := Build {
  descriptor : bool;
  timeStamp : bool;
  alarm : bool;
  display : bool;
  extraFieldNames : list string;
  extraFields : list FieldConstPtr
}.

Definition URI : string := "uri:ev4:nt/2014/pwd:NTNDArray".
Definition ntAttrStr : string := "uri:ev4:nt/2014/pwd:NTAttribute".

Definition addDescriptor (b : t) : t :=
  Build true (timeStamp b) (alarm b) (display b)
    (extraFieldNames b) (extraFields b).

Definition addAlarm (b : t) : t :=
  Build (descriptor b) (timeStamp b) true (display b)
    (extraFieldNames b) (extraFields b).

Definition addTimeStamp (b : t) : t :=
  Build (descriptor b) true (alarm b) (display b)
    (extraFieldNames b) (extraFields b).

Definition addDisplay (b : t) : t :=
  Build (descriptor b) (timeStamp b) (alarm b) true
    (extraFieldNames b) (extraFields b).

Definition add (name : string) (field : FieldConstPtr) (b : t) : t :=
  Build (descriptor b) (timeStamp b) (alarm b) (display b)
    (extraFieldNames b ++ [name]) (extraFields b ++ [field]).

(** [reset()] *)
Definition reset (b : t) : t := Build false false false false [] [].

(** The constructor calls [reset()]; the members have no other
    initialiser. *)
Definition new : t := reset (Build false false false false [] []).

Section WithFramework.
Variable standardField : StandardField.t.
Variable naming : Naming.t.

(** [for (int i = pvBoolean; i < pvString; ++i) fb->addArray(name(st) +
    "Value", st);] with [n] the iterations that remain. *)
Fixpoint value_arrays (n i : nat) (fb : FieldBuilder.t) : FieldBuilder.t :=
  match n with
  | O => fb
  | S n' =>
      let st := ScalarType_of_nat i in
      value_arrays n' (S i)
        (FieldBuilder.addArray_scalar
           (Naming.ScalarTypeFunc_name naming st ++ "Value") st fb)
  end.

(** [for (i = 0; i < extraCount; i++) fb->add(extraFieldNames[i],
    extraFields[i]);] *)
Fixpoint add_extra (n i : nat) (b : t) (fb : FieldBuilder.t) : FieldBuilder.t :=
  match n with
  | O => fb
  | S n' =>
      add_extra n' (S i) b
        (FieldBuilder.add (extraFieldNames b !!! i) (extraFields b !!! i) fb)
  end.

Definition timeStamp_field : FieldConstPtr :=
  Some (StructureField (StandardField.timeStamp standardField)).

(** The structure [createStructure()] returns. *)
Definition build (b : t) : outcome Structure :=
  let fb := FieldBuilder.new in
  let fb := value_arrays (ScalarType_to_nat pvString - ScalarType_to_nat pvBoolean)
              (ScalarType_to_nat pvBoolean) fb in
  let! (valueType, fb) := FieldBuilder.createUnion naming fb in
  let fb := FieldBuilder.setId "codec_t" fb in
  let fb := FieldBuilder.add_scalar "name" pvString fb in
  let fb := FieldBuilder.add "parameters"
              (Some (FieldBuilder.createVariantUnion naming)) fb in
  let! (codecStruc, fb) := FieldBuilder.createStructure naming fb in
  let fb := FieldBuilder.setId "dimension_t" fb in
  let fb := FieldBuilder.add_scalar "size" pvInt fb in
  let fb := FieldBuilder.add_scalar "offset" pvInt fb in
  let fb := FieldBuilder.add_scalar "fullSize" pvInt fb in
  let fb := FieldBuilder.add_scalar "binning" pvInt fb in
  let fb := FieldBuilder.add_scalar "reverse" pvBoolean fb in
  let! (dimensionStruc, fb) := FieldBuilder.createStructure naming fb in
  let fb := FieldBuilder.setId ntAttrStr fb in
  let fb := FieldBuilder.add_scalar "name" pvString fb in
  let fb := FieldBuilder.add "value"
              (Some (FieldBuilder.createVariantUnion naming)) fb in
  let fb := FieldBuilder.add_scalar "descriptor" pvString fb in
  let fb := FieldBuilder.add_scalar "sourceType" pvInt fb in
  let fb := FieldBuilder.add_scalar "source" pvString fb in
  let! (attributeStruc, fb) := FieldBuilder.createStructure naming fb in
  let fb := FieldBuilder.setId URI fb in
  let fb := FieldBuilder.add "value" (Some valueType) fb in
  let fb := FieldBuilder.add "codec" (Some (StructureField codecStruc)) fb in
  let fb := FieldBuilder.add_scalar "compressedSize" pvLong fb in
  let fb := FieldBuilder.add_scalar "uncompressedSize" pvLong fb in
  let fb := FieldBuilder.addArray_structure "dimension" dimensionStruc fb in
  let fb := FieldBuilder.add_scalar "uniqueId" pvInt fb in
  let fb := FieldBuilder.add "dataTimeStamp" timeStamp_field fb in
  let fb := FieldBuilder.addArray_structure "attribute" attributeStruc fb in
  let fb := if descriptor b
            then FieldBuilder.add_scalar "descriptor" pvString fb else fb in
  let fb := if timeStamp b
            then FieldBuilder.add "timeStamp" timeStamp_field fb else fb in
  let fb := if alarm b
            then FieldBuilder.add "alarm"
                   (Some (StructureField (StandardField.alarm standardField))) fb
            else fb in
  let fb := if display b
            then FieldBuilder.add "display"
                   (Some (StructureField (StandardField.display standardField))) fb
            else fb in
  let extraCount := length (extraFieldNames b) in
  let fb := add_extra extraCount 0 b fb in
  let! (st, fb) := FieldBuilder.createStructure naming fb in
  Ret st.

(** [createStructure()]: the result and the builder afterwards; no
    member is assigned. *)
Definition createStructure (b : t) : outcome Structure * t :=
  (build b, b).

(** [createPVStructure()] *)
Definition createPVStructure (b : t) : outcome PVStructure * t :=
  let '(r, b') := createStructure b in
  (let! st := r in Ret (PVDataCreate_createPVStructure st), b').
End WithFramework.

End NTNDArrayBuilder.

(** ** [ntndarray.cpp]: the wrapper and its predicates *)

(** [std::string::compare]: negative, zero or positive. *)
Definition string_compare (a b : string) : Z :=
  match String.compare a b with
  | Eq => 0%Z
  | Lt => (-1)%Z
  | Gt => 1%Z
  end.

(** [!n] on an [int], and the promotion of a [bool] back to [int]. *)
Definition int_not (n : Z) : bool := Z.eqb n 0.
Definition int_of_bool (b : bool) : Z := if b then 1%Z else 0%Z.

(** A [PVStructureArrayPtr]: the handle is represented by the structure
    [getStructureArray()->getStructure()] yields from it. *)
Definition PVStructureArrayPtr : Type := option Structure.

(** [getSubField<PVStructureArray>(name)] *)
Definition getSubField_PVStructureArray (pv : PVStructure) (name : string)
  : PVStructureArrayPtr :=
  match getSubField pv name with
  | Some (StructureArray element) => Some element
  | _ => None
  end.

(** [getSubField<PVStructure>(name)] *)
Definition getSubField_PVStructure (pv : PVStructure) (name : string)
  : PVStructurePtr :=
  match getSubField pv name with
  | Some (StructureField s) => Some (mkPVStructure s)
  | _ => None
  end.

Module NTNDArray.

Definition URI : string := NTNDArrayBuilder.URI.

Record t : Type := Build {
  pvNTNDArray : PVStructurePtr
}.

Definition shared_pointer : Type := option t.

(** [narrow_unsafe]: the constructor only stores its argument. *)
Definition narrow_unsafe (structure : PVStructurePtr) : shared_pointer :=
  Some (Build structure).

(** [is_a]: [structure->getID() == URI] *)
Definition is_a (structure : StructureConstPtr) : outcome bool :=
  match structure with
  | None => NullDereference
  | Some s => Ret (String.eqb (getID s) URI)
  end.

(** [narrow]: [!structure || !is_a(structure->getStructure())] *)
Definition narrow (structure : PVStructurePtr) : outcome shared_pointer :=
  match structure with
  | None => Ret None
  | Some pv =>
      let! a := is_a (Some (getStructure pv)) in
      if negb a then Ret None else Ret (narrow_unsafe structure)
  end.

Section WithNTField.
Variable ntField : NTField.t.

(** [pvField && !check(pvField->getField())] *)
Definition present_and_not (check : Field -> bool) (pvField : PVFieldPtr) : bool :=
  match pvField with
  | Some f => negb (check f)
  | None => false
  end.

(** [is_compatible(PVStructurePtr const &)] *)
Definition is_compatible (pvStructure : PVStructurePtr) : outcome bool :=
  match pvStructure with
  | None => NullDereference
  | Some pv =>
    let pvValue := getSubField_as PVUnion_c pv "value" in
    if is_null pvValue then Ret false else
    let pvField := getSubField pv "descriptor" in
    if negb (is_null pvField)
       && is_null (getSubField_as PVString pv "descriptor")
    then Ret false else
    let pvField := getSubField pv "alarm" in
    if present_and_not (NTField.isAlarm ntField) pvField then Ret false else
    let pvField := getSubField pv "timeStamp" in
    if present_and_not (NTField.isTimeStamp ntField) pvField then Ret false else
    let pvField := getSubField pv "display" in
    if present_and_not (NTField.isDisplay ntField) pvField then Ret false else
    if is_null (getSubField_as PVLong pv "compressedSize") then Ret false else
    if is_null (getSubField_as PVLong pv "uncompressedSize") then Ret false else
    let pvCodec := getSubField_PVStructure pv "codec" in
    match pvCodec with
    | None => Ret false
    | Some codec =>
      if is_null (getSubField_as PVString codec "name") then Ret false else
      if is_null (getSubField_as PVUnion_c codec "parameters") then Ret false else
      let pvDimension := getSubField_PVStructureArray pv "dimension" in
      match pvDimension with
      | None => NullDereference
      | Some dimension =>
        if negb (Z.eqb (string_compare (getID dimension) "dimension_t") 0)
        then Ret false else
        if is_null (getSubField_as PVInt pv "uniqueId") then Ret false else
        let pvField := getSubField pv "dataTimeStamp" in
        if present_and_not (NTField.isTimeStamp ntField) pvField
        then Ret false else
        let pvAttribute := getSubField_PVStructureArray pv "attribute" in
        match pvAttribute with
        | None => NullDereference
        | Some attribute =>
          if negb (Z.eqb
                     (int_of_bool
                        (int_not (string_compare (getID attribute) "ntAttrStr")))
                     0)
          then Ret false else
          Ret true
        end
      end
    end
  end.
End WithNTField.

(** [NTNDArrayBuilder::create()] *)
Definition create (standardField : StandardField.t) (naming : Naming.t)
    (b : NTNDArrayBuilder.t) : outcome shared_pointer * NTNDArrayBuilder.t :=
  let '(r, b') := NTNDArrayBuilder.createPVStructure standardField naming b in
  (let! pv := r in Ret (Some (Build (Some pv))), b').

(** [getPVStructure()] *)
Definition getPVStructure (w : t) : PVStructurePtr := pvNTNDArray w.

(** [pvNTNDArray->getSubField<PVT>(name)], the body of every getter. *)
Definition getter (PVT : PVClass) (name : string) (w : t) : outcome PVFieldPtr :=
  match pvNTNDArray w with
  | None => NullDereference
  | Some pv => Ret (getSubField_as PVT pv name)
  end.

Definition getValue : t -> outcome PVFieldPtr := getter PVUnion_c "value".
Definition getCodec : t -> outcome PVFieldPtr := getter PVStructure_c "codec".
Definition getCompressedDataSize : t -> outcome PVFieldPtr :=
  getter PVLong "compressedSize".
Definition getUncompressedDataSize : t -> outcome PVFieldPtr :=
  getter PVLong "uncompressedSize".
Definition getAttribute : t -> outcome PVFieldPtr :=
  getter PVStructureArray_c "attribute".
Definition getDimension : t -> outcome PVFieldPtr :=
  getter PVStructureArray_c "dimension".
Definition getDataTimeStamp : t -> outcome PVFieldPtr :=
  getter PVStructure_c "dataTimeStamp".
Definition getDescriptor : t -> outcome PVFieldPtr :=
  getter PVString "descriptor".
Definition getTimeStamp : t -> outcome PVFieldPtr :=
  getter PVStructure_c "timeStamp".
Definition getAlarm : t -> outcome PVFieldPtr := getter PVStructure_c "alarm".
Definition getDisplay : t -> outcome PVFieldPtr := getter PVStructure_c "display".

(** [attachTimeStamp], [attachDataTimeStamp], [attachAlarm]: the getter,
    then the helper object's [attach] when the handle is not null. *)
Definition attach_to (get : t -> outcome PVFieldPtr) (attach : PVField -> bool)
    (w : t) : outcome bool :=
  let! handle := get w in
  match handle with
  | Some f => Ret (attach f)
  | None => Ret false
  end.

Definition attachTimeStamp : (PVField -> bool) -> t -> outcome bool :=
  attach_to getTimeStamp.
Definition attachDataTimeStamp : (PVField -> bool) -> t -> outcome bool :=
  attach_to getDataTimeStamp.
Definition attachAlarm : (PVField -> bool) -> t -> outcome bool :=
  attach_to getAlarm.

End NTNDArray.

(** ** [nttable.h]: the typed column accessor *)

Module NTTable.
Section WithColumns.
(** [getColumn(columnName)], declared in the header and defined
    elsewhere: taken as given, with whatever outcome it has. *)
Variable getColumn : string -> outcome PVFieldPtr.

(** [template<typename PVT> getColumn(columnName)] *)
Definition getColumn_as (PVT : PVClass) (columnName : string)
  : outcome PVFieldPtr :=
  let! pvField := getColumn columnName in
  if negb (is_null pvField)
  then Ret (dynamic_pointer_cast PVT pvField)
  else Ret None.
End WithColumns.
End NTTable.

(** * Specification vocabulary *)

(** An optional field is acceptable when, if the schema has it, it
    satisfies [P]. *)
Definition optional_matches (s : Structure) (name : string) (P : Field -> Prop)
  : Prop :=
  forall f, getField s name = Some f -> P f.

(** The mandatory fields of NTScalarMultiChannel: [value], a scalar array,
    and [channelName], a scalar array of strings. *)
Definition mandatory_fields_match (s : Structure) : Prop :=
  (exists elementType, getField s "value" = Some (ScalarArray elementType))
  /\ getField s "channelName" = Some (ScalarArray pvString).

(** Every optional field of NTScalarMultiChannel that is present has its
    required type. *)
Definition optional_fields_match (ntField : NTField.t) (s : Structure) : Prop :=
  optional_matches s "severity" (fun f => f = ScalarArray pvInt)
  /\ optional_matches s "status" (fun f => f = ScalarArray pvInt)
  /\ optional_matches s "message" (fun f => f = ScalarArray pvString)
  /\ optional_matches s "secondsPastEpoch" (fun f => f = ScalarArray pvLong)
  /\ optional_matches s "nanoseconds" (fun f => f = ScalarArray pvInt)
  /\ optional_matches s "userTag" (fun f => f = ScalarArray pvInt)
  /\ optional_matches s "descriptor" (fun f => f = Scalar pvString)
  /\ optional_matches s "alarm" (fun f => NTField.isAlarm ntField f = true)
  /\ optional_matches s "timeStamp" (fun f => NTField.isTimeStamp ntField f = true).

(** The entry an optional field contributes to a schema. *)
Definition optional_field (flag : bool) (name : string) (f : Field)
  : list (string * Field) :=
  if flag then [(name, f)] else [].

(** The members of the schema of a NTScalarMultiChannel builder in state
    [b] whose extra fields are [extras]: the two mandatory fields, the
    optional fields whose flag is set, the extra fields. *)
Definition expected_members (standardField : StandardField.t)
    (b : NTScalarMultiChannelBuilder.t) (extras : list (string * Field))
  : list (string * Field) :=
  [("value", ScalarArray (NTScalarMultiChannelBuilder.valueType b));
   ("channelName", ScalarArray pvString)]
  ++ optional_field (NTScalarMultiChannelBuilder.descriptor b)
       "descriptor" (Scalar pvString)
  ++ optional_field (NTScalarMultiChannelBuilder.alarm b)
       "alarm" (StructureField (StandardField.alarm standardField))
  ++ optional_field (NTScalarMultiChannelBuilder.timeStamp b)
       "timeStamp" (StructureField (StandardField.timeStamp standardField))
  ++ optional_field (NTScalarMultiChannelBuilder.severity b)
       "severity" (ScalarArray pvInt)
  ++ optional_field (NTScalarMultiChannelBuilder.status b)
       "status" (ScalarArray pvInt)
  ++ optional_field (NTScalarMultiChannelBuilder.message b)
       "message" (ScalarArray pvString)
  ++ optional_field (NTScalarMultiChannelBuilder.secondsPastEpoch b)
       "secondsPastEpoch" (ScalarArray pvLong)
  ++ optional_field (NTScalarMultiChannelBuilder.nanoseconds b)
       "nanoseconds" (ScalarArray pvInt)
  ++ optional_field (NTScalarMultiChannelBuilder.userTag b)
       "userTag" (ScalarArray pvInt)
  ++ optional_field (NTScalarMultiChannelBuilder.isConnected b)
       "isConnected" (ScalarArray pvBoolean)
  ++ extras.

(** The extra fields a configuration adds, in the order of the calls. *)
Fixpoint added (cs : list NTScalarMultiChannelBuilder.call)
  : list (string * FieldConstPtr) :=
  match cs with
  | [] => []
  | NTScalarMultiChannelBuilder.Add name field :: cs' => (name, field) :: added cs'
  | _ :: cs' => added cs'
  end.

Definition non_null (e : string * Field) : string * FieldConstPtr :=
  (fst e, Some (snd e)).

(** The two vectors of extra fields grow together. *)
Definition extras_aligned (b : NTScalarMultiChannelBuilder.t) : Prop :=
  length (NTScalarMultiChannelBuilder.extraFieldNames b)
  = length (NTScalarMultiChannelBuilder.extraFields b).

(** Whether a configuration makes a given setter call. *)
Definition same_setter (k c : NTScalarMultiChannelBuilder.call) : bool :=
  match k, c with
  | NTScalarMultiChannelBuilder.AddDescriptor,
    NTScalarMultiChannelBuilder.AddDescriptor
  | NTScalarMultiChannelBuilder.AddAlarm,
    NTScalarMultiChannelBuilder.AddAlarm
  | NTScalarMultiChannelBuilder.AddTimeStamp,
    NTScalarMultiChannelBuilder.AddTimeStamp
  | NTScalarMultiChannelBuilder.AddSeverity,
    NTScalarMultiChannelBuilder.AddSeverity
  | NTScalarMultiChannelBuilder.AddStatus,
    NTScalarMultiChannelBuilder.AddStatus
  | NTScalarMultiChannelBuilder.AddMessage,
    NTScalarMultiChannelBuilder.AddMessage
  | NTScalarMultiChannelBuilder.AddSecondsPastEpoch,
    NTScalarMultiChannelBuilder.AddSecondsPastEpoch
  | NTScalarMultiChannelBuilder.AddNanoseconds,
    NTScalarMultiChannelBuilder.AddNanoseconds
  | NTScalarMultiChannelBuilder.AddUserTag,
    NTScalarMultiChannelBuilder.AddUserTag
  | NTScalarMultiChannelBuilder.AddIsConnected,
    NTScalarMultiChannelBuilder.AddIsConnected => true
  | _, _ => false
  end.

Definition called (k : NTScalarMultiChannelBuilder.call)
    (cs : list NTScalarMultiChannelBuilder.call) : bool :=
  existsb (same_setter k) cs.

(** The arrays of [createStructure] after the entries [w] have been
    stored, with [r] slots still to fill. *)
Definition filled (w : list (string * FieldConstPtr)) (r : nat)
    (a : NTScalarMultiChannelBuilder.arrays) : Prop :=
  NTScalarMultiChannelBuilder.names a = map fst w ++ replicate r ""
  /\ NTScalarMultiChannelBuilder.fields a = map snd w ++ replicate r None
  /\ NTScalarMultiChannelBuilder.ind a = length w.

(** The entries [createStructure] hands to the field factory: those of the
    mandatory and optional fields, then the two vectors of extra fields
    side by side. *)
Definition stored_entries (standardField : StandardField.t)
    (b : NTScalarMultiChannelBuilder.t) : list (string * FieldConstPtr) :=
  map non_null (expected_members standardField b [])
  ++ zip (NTScalarMultiChannelBuilder.extraFieldNames b)
         (NTScalarMultiChannelBuilder.extraFields b).

(** The names [isCompatible] looks up. *)
Definition inspected_names : list string :=
  ["value"; "channelName"; "severity"; "status"; "message";
   "secondsPastEpoch"; "nanoseconds"; "userTag"; "descriptor"; "alarm";
   "timeStamp"].

(** The mandatory sub-fields [NTNDArray::is_compatible] asks for before it
    looks up [dimension]: the [value] union, the two sizes, and the [codec]
    structure with its [name] and [parameters]. *)
Definition mandatory_before_dimension (pv : PVStructure) : Prop :=
  (exists id members, getSubField pv "value" = Some (Union id members))
  /\ getSubField pv "compressedSize" = Some (Scalar pvLong)
  /\ getSubField pv "uncompressedSize" = Some (Scalar pvLong)
  /\ exists codec,
       getSubField pv "codec" = Some (StructureField codec)
       /\ getField codec "name" = Some (Scalar pvString)
       /\ exists id members, getField codec "parameters" = Some (Union id members).

(** The optional sub-fields it tests on the way, when they are there. *)
Definition optional_before_dimension (ntField : NTField.t) (pv : PVStructure)
  : Prop :=
  optional_matches (getStructure pv) "descriptor" (fun f => f = Scalar pvString)
  /\ optional_matches (getStructure pv) "alarm"
       (fun f => NTField.isAlarm ntField f = true)
  /\ optional_matches (getStructure pv) "timeStamp"
       (fun f => NTField.isTimeStamp ntField f = true)
  /\ optional_matches (getStructure pv) "display"
       (fun f => NTField.isDisplay ntField f = true).

(** [NTNDArray::is_compatible] gets as far as the lookup of [dimension]:
    every earlier check passes. *)
Definition reaches_dimension (ntField : NTField.t) (pv : PVStructure) : Prop :=
  mandatory_before_dimension pv /\ optional_before_dimension ntField pv.

(** [NTNDArray::is_compatible] gets as far as the lookup of [attribute]. *)
Definition reaches_attribute (ntField : NTField.t) (pv : PVStructure) : Prop :=
  reaches_dimension ntField pv
  /\ (exists dimension,
        getSubField pv "dimension" = Some (StructureArray dimension)
        /\ getID dimension = "dimension_t")
  /\ getSubField pv "uniqueId" = Some (Scalar pvInt)
  /\ optional_matches (getStructure pv) "dataTimeStamp"
       (fun f => NTField.isTimeStamp ntField f = true).

(** The value element type a configuration ends with: that of its last
    [value] call, [d] when it makes none. *)
Fixpoint last_value (cs : list NTScalarMultiChannelBuilder.call) (d : ScalarType)
  : ScalarType :=
  match cs with
  | [] => d
  | NTScalarMultiChannelBuilder.Value scalarType :: cs' => last_value cs' scalarType
  | _ :: cs' => last_value cs' d
  end.

(** The union of scalar arrays NTNDArray holds its data in. *)
Definition ndarray_value (naming : Naming.t) : Field :=
  Union (Naming.Union_DEFAULT_ID naming)
    (map (fun st => (String.append (Naming.ScalarTypeFunc_name naming st) "Value",
                     ScalarArray st))
       [pvBoolean; pvByte; pvShort; pvInt; pvLong; pvUByte; pvUShort;
        pvUInt; pvULong; pvFloat; pvDouble]).

Definition ndarray_codec (naming : Naming.t) : Structure :=
  mkStructure "codec_t"
    [("name", Scalar pvString);
     ("parameters", Union (Naming.Union_ANY_ID naming) [])].

Definition ndarray_dimension : Structure :=
  mkStructure "dimension_t"
    [("size", Scalar pvInt); ("offset", Scalar pvInt);
     ("fullSize", Scalar pvInt); ("binning", Scalar pvInt);
     ("reverse", Scalar pvBoolean)].

Definition ndarray_attribute (naming : Naming.t) : Structure :=
  mkStructure "uri:ev4:nt/2014/pwd:NTAttribute"
    [("name", Scalar pvString);
     ("value", Union (Naming.Union_ANY_ID naming) []);
     ("descriptor", Scalar pvString); ("sourceType", Scalar pvInt);
     ("source", Scalar pvString)].

(** The eight mandatory fields of NTNDArray, in the order of the builder. *)
Definition ndarray_fixed (standardField : StandardField.t) (naming : Naming.t)
  : list (string * Field) :=
  [("value", ndarray_value naming);
   ("codec", StructureField (ndarray_codec naming));
   ("compressedSize", Scalar pvLong);
   ("uncompressedSize", Scalar pvLong);
   ("dimension", StructureArray ndarray_dimension);
   ("uniqueId", Scalar pvInt);
   ("dataTimeStamp", StructureField (StandardField.timeStamp standardField));
   ("attribute", StructureArray (ndarray_attribute naming))].

(** The members of the schema of a NTNDArray builder in state [b] whose
    extra fields are [extras]: the mandatory fields, then descriptor,
    timeStamp, alarm and display when their flag is set, then the extra
    fields. *)
Definition ndarray_members (standardField : StandardField.t) (naming : Naming.t)
    (b : NTNDArrayBuilder.t) (extras : list (string * Field))
  : list (string * Field) :=
  ndarray_fixed standardField naming
  ++ optional_field (NTNDArrayBuilder.descriptor b) "descriptor" (Scalar pvString)
  ++ optional_field (NTNDArrayBuilder.timeStamp b) "timeStamp"
       (StructureField (StandardField.timeStamp standardField))
  ++ optional_field (NTNDArrayBuilder.alarm b) "alarm"
       (StructureField (StandardField.alarm standardField))
  ++ optional_field (NTNDArrayBuilder.display b) "display"
       (StructureField (StandardField.display standardField))
  ++ extras.

(** A field builder that holds the id [id] and the fields [held]. *)
Definition builder_holding (id : string) (held : list (string * Field))
  : FieldBuilder.t :=
  FieldBuilder.Build id true (map fst (map non_null held))
    (map snd (map non_null held)).

(** [NTNDArrayBuilder::createStructure()] from its first optional field
    on, the field builder being [fb] at that point. *)
Definition build_tail (standardField : StandardField.t) (naming : Naming.t)
    (b : NTNDArrayBuilder.t) (fb : FieldBuilder.t) : outcome Structure :=
  let fb := if NTNDArrayBuilder.descriptor b
            then FieldBuilder.add_scalar "descriptor" pvString fb else fb in
  let fb := if NTNDArrayBuilder.timeStamp b
            then FieldBuilder.add "timeStamp"
                   (NTNDArrayBuilder.timeStamp_field standardField) fb
            else fb in
  let fb := if NTNDArrayBuilder.alarm b
            then FieldBuilder.add "alarm"
                   (Some (StructureField (StandardField.alarm standardField))) fb
            else fb in
  let fb := if NTNDArrayBuilder.display b
            then FieldBuilder.add "display"
                   (Some (StructureField (StandardField.display standardField))) fb
            else fb in
  let extraCount := length (NTNDArrayBuilder.extraFieldNames b) in
  let fb := NTNDArrayBuilder.add_extra extraCount 0 b fb in
  let! (st, fb) := FieldBuilder.createStructure naming fb in
  Ret st.

(** The names of the optional fields of NTNDArray. *)
Definition ndarray_optional_names : list string :=
  ["descriptor"; "timeStamp"; "alarm"; "display"].

(** The names [NTNDArray::is_compatible] looks up in the instance. *)
Definition ndarray_inspected_names : list string :=
  ["value"; "descriptor"; "alarm"; "timeStamp"; "display"; "compressedSize";
   "uncompressedSize"; "codec"; "dimension"; "uniqueId"; "dataTimeStamp";
   "attribute"].

(** ** A sample framework, to run the definitions on *)

Definition sample_alarm : Structure :=
  mkStructure "alarm_t"
    [("severity", Scalar pvInt); ("status", Scalar pvInt);
     ("message", Scalar pvString)].

Definition sample_timeStamp : Structure :=
  mkStructure "time_t"
    [("secondsPastEpoch", Scalar pvLong); ("nanoseconds", Scalar pvInt);
     ("userTag", Scalar pvInt)].

Definition sample_display : Structure :=
  mkStructure "display_t"
    [("limitLow", Scalar pvDouble); ("limitHigh", Scalar pvDouble);
     ("description", Scalar pvString); ("format", Scalar pvString);
     ("units", Scalar pvString)].

Definition sample_standardField : StandardField.t :=
  StandardField.Build sample_alarm sample_timeStamp sample_display.

(** A structure whose fields have the given names and scalar types. *)
Definition has_scalars (shape : list (string * ScalarType)) (f : Field) : bool :=
  match f with
  | StructureField (mkStructure _ members) =>
      bool_decide (length members = length shape)
      && forallb
           (fun e => match lookup_field (fst e) members with
                     | Some (Scalar t) => bool_decide (t = snd e)
                     | _ => false
                     end) shape
  | _ => false
  end.

Definition sample_ntField : NTField.t :=
  NTField.Build
    (has_scalars [("severity", pvInt); ("status", pvInt); ("message", pvString)])
    (has_scalars [("secondsPastEpoch", pvLong); ("nanoseconds", pvInt);
                  ("userTag", pvInt)])
    (has_scalars [("limitLow", pvDouble); ("limitHigh", pvDouble);
                  ("description", pvString); ("format", pvString);
                  ("units", pvString)]).

Definition sample_name (s : ScalarType) : string :=
  match s with
  | pvBoolean => "boolean" | pvByte => "byte" | pvShort => "short"
  | pvInt => "int" | pvLong => "long" | pvUByte => "ubyte"
  | pvUShort => "ushort" | pvUInt => "uint" | pvULong => "ulong"
  | pvFloat => "float" | pvDouble => "double" | pvString => "string"
  end.

Definition sample_naming : Naming.t :=
  Naming.Build sample_name "union" "any" "structure".

(** A schema with the mandatory fields of NTScalarMultiChannel and a time
    stamp, and the same schema without [channelName]. *)
Definition sample_schema : Structure :=
  mkStructure NTScalarMultiChannel.URI
    [("value", ScalarArray pvInt); ("channelName", ScalarArray pvString);
     ("timeStamp", StructureField sample_timeStamp)].

Definition sample_schema_without_channelName : Structure :=
  mkStructure NTScalarMultiChannel.URI
    [("value", ScalarArray pvInt);
     ("timeStamp", StructureField sample_timeStamp)].

(** A configuration: two extra fields around three setter calls. *)
Definition sample_calls : list NTScalarMultiChannelBuilder.call :=
  [NTScalarMultiChannelBuilder.Add "first" (Some (Scalar pvDouble));
   NTScalarMultiChannelBuilder.AddSeverity;
   NTScalarMultiChannelBuilder.Value pvInt;
   NTScalarMultiChannelBuilder.AddTimeStamp;
   NTScalarMultiChannelBuilder.Add "second" (Some (Scalar pvString))].

Definition sample_extras : list (string * Field) :=
  [("first", Scalar pvDouble); ("second", Scalar pvString)].

(** A builder with four optional fields switched on. *)
Definition sample_builder : NTScalarMultiChannelBuilder.t :=
  NTScalarMultiChannelBuilder.configure
    [NTScalarMultiChannelBuilder.AddAlarm;
     NTScalarMultiChannelBuilder.AddTimeStamp;
     NTScalarMultiChannelBuilder.AddSeverity;
     NTScalarMultiChannelBuilder.AddDescriptor]
    NTScalarMultiChannelBuilder.new.

(** An instance that carries the NTNDArray id and no field at all. *)
Definition sample_id_only : PVStructure :=
  mkPVStructure (mkStructure NTNDArray.URI []).

(** An NTNDArray instance as the builder shapes it, but for the id of the
    structures in its [attribute] array. *)
Definition sample_ndarray (attributeId : string) : PVStructure :=
  mkPVStructure
    (mkStructure NTNDArray.URI
       [("value", Union "union" [("doubleValue", ScalarArray pvDouble)]);
        ("codec",
         StructureField
           (mkStructure "codec_t"
              [("name", Scalar pvString); ("parameters", Union "any" [])]));
        ("compressedSize", Scalar pvLong);
        ("uncompressedSize", Scalar pvLong);
        ("dimension",
         StructureArray
           (mkStructure "dimension_t"
              [("size", Scalar pvInt); ("offset", Scalar pvInt);
               ("fullSize", Scalar pvInt); ("binning", Scalar pvInt);
               ("reverse", Scalar pvBoolean)]));
        ("uniqueId", Scalar pvInt);
        ("dataTimeStamp", StructureField sample_timeStamp);
        ("attribute",
         StructureArray
           (mkStructure attributeId
              [("name", Scalar pvString); ("value", Union "any" []);
               ("descriptor", Scalar pvString); ("sourceType", Scalar pvInt);
               ("source", Scalar pvString)]))]).

(** The same without its [dimension] field, and without its [attribute]
    field. *)
Definition without_field (name : string) (pv : PVStructure) : PVStructure :=
  mkPVStructure
    (mkStructure (getID (getStructure pv))
       (filter (fun e => negb (String.eqb (fst e) name))
          (getMembers (getStructure pv)))).

(** An instance with every mandatory sub-field but [dimension], and a
    [descriptor] that is an array of integers. *)
Definition sample_without_dimension_bad_descriptor : PVStructure :=
  mkPVStructure
    (mkStructure NTNDArray.URI
       (getMembers (getStructure
          (without_field "dimension" (sample_ndarray NTNDArrayBuilder.ntAttrStr)))
        ++ [("descriptor", ScalarArray pvInt)])).

(** An untyped column lookup: one column of doubles, nothing else. *)
Definition sample_getColumn (columnName : string) : outcome PVFieldPtr :=
  if String.eqb columnName "position" then Ret (Some (ScalarArray pvDouble))
  else Ret None.

(** Field names a schema can be built from whatever the factory does with
    the others: pairwise distinct and not empty. *)
Definition well_named (members : list (string * Field)) : Prop :=
  NoDup (map fst members) /\ "" ∉ map fst members.

(** Checking [well_named] on a given list of members. *)
Ltac run_not_in :=
  let H := fresh "H" in
  rewrite ?elem_of_cons, elem_of_nil; intros H; decompose [or] H;
  try discriminate; assumption.

Ltac run_well_named :=
  unfold well_named; split;
  [ match goal with
    | |- NoDup ?l => let l' := eval vm_compute in l in change (NoDup l')
    end;
    repeat (apply NoDup_cons_2; [run_not_in |]); apply NoDup_nil_2
  | match goal with
    | |- ?x ∉ ?l => let l' := eval vm_compute in l in change (x ∉ l')
    end;
    run_not_in ].

(** Running the [reaches_] predicates on a given instance. *)
Ltac run_optional :=
  let f := fresh "f" in
  let H := fresh "H" in
  intros f H; vm_compute in H;
  first [discriminate H | injection H as <-; reflexivity].

Ltac run_reaches :=
  unfold reaches_attribute, reaches_dimension, mandatory_before_dimension,
    optional_before_dimension;
  repeat match goal with
         | |- _ /\ _ => split
         | |- optional_matches _ _ _ => run_optional
         | |- exists _, _ => eexists
         | |- _ = _ => reflexivity
         end.

(** A configuration with a null extra field. *)
Definition sample_calls_with_null : list NTScalarMultiChannelBuilder.call :=
  [NTScalarMultiChannelBuilder.AddAlarm;
   NTScalarMultiChannelBuilder.Add "broken" None;
   NTScalarMultiChannelBuilder.Value pvInt].

(** [sample_schema] under another id, its fields in another order, with
    fields [isCompatible] does not look up. *)
Definition sample_schema_reordered : Structure :=
  mkStructure "structure"
    [("isConnected", Scalar pvInt);
     ("timeStamp", StructureField sample_timeStamp);
     ("channelName", ScalarArray pvString);
     ("comment", Scalar pvString);
     ("value", ScalarArray pvInt)].

(** A compatible schema whose [isConnected] is not a boolean array. *)
Definition sample_schema_odd_isConnected : Structure :=
  mkStructure NTScalarMultiChannel.URI
    [("value", ScalarArray pvInt); ("channelName", ScalarArray pvString);
     ("severity", ScalarArray pvInt); ("isConnected", ScalarArray pvInt)].

(** The names the constructor of the NTScalarMultiChannel wrapper looks
    up. *)
Definition wrapper_names : list string :=
  ["timeStamp"; "alarm"; "value"; "channelName"; "isConnected"; "severity";
   "status"; "message"; "secondsPastEpoch"; "nanoseconds"; "userTag";
   "descriptor"].

(** The handle of an optional sub-field the builder adds under a flag. *)
Definition handle_if (flag : bool) (f : Field) : PVFieldPtr :=
  if flag then Some f else None.

(** A helper object's [attach] that accepts whatever it is given. *)
Definition sample_attach (f : PVField) : bool := true.

(** The two vectors of extra fields of a NTNDArray builder grow
    together. *)
Definition ndarray_extras_aligned (b : NTNDArrayBuilder.t) : Prop :=
  length (NTNDArrayBuilder.extraFieldNames b)
  = length (NTNDArrayBuilder.extraFields b).

(** A NTNDArray builder with two flags set and one extra field, and one
    with a null extra field. *)
Definition sample_ndarray_builder : NTNDArrayBuilder.t :=
  NTNDArrayBuilder.add "comment" (Some (Scalar pvString))
    (NTNDArrayBuilder.addAlarm
       (NTNDArrayBuilder.addDescriptor NTNDArrayBuilder.new)).

Definition sample_ndarray_builder_with_null : NTNDArrayBuilder.t :=
  NTNDArrayBuilder.add "broken" None
    (NTNDArrayBuilder.addDisplay NTNDArrayBuilder.new).

(** The optional fields [isCompatible] checks against a fixed type: the
    type required under each name, and the builder flag of the name. *)
Definition required_type (name : string) : option Field :=
  if String.eqb name "severity" then Some (ScalarArray pvInt)
  else if String.eqb name "status" then Some (ScalarArray pvInt)
  else if String.eqb name "message" then Some (ScalarArray pvString)
  else if String.eqb name "secondsPastEpoch" then Some (ScalarArray pvLong)
  else if String.eqb name "nanoseconds" then Some (ScalarArray pvInt)
  else if String.eqb name "userTag" then Some (ScalarArray pvInt)
  else if String.eqb name "descriptor" then Some (Scalar pvString)
  else None.

Definition flag_of (name : string) (b : NTScalarMultiChannelBuilder.t) : bool :=
  if String.eqb name "severity" then NTScalarMultiChannelBuilder.severity b
  else if String.eqb name "status" then NTScalarMultiChannelBuilder.status b
  else if String.eqb name "message" then NTScalarMultiChannelBuilder.message b
  else if String.eqb name "secondsPastEpoch"
       then NTScalarMultiChannelBuilder.secondsPastEpoch b
  else if String.eqb name "nanoseconds"
       then NTScalarMultiChannelBuilder.nanoseconds b
  else if String.eqb name "userTag" then NTScalarMultiChannelBuilder.userTag b
  else if String.eqb name "descriptor"
       then NTScalarMultiChannelBuilder.descriptor b
  else false.

(** A builder to which a [severity] of another type is added by hand. *)
Definition sample_builder_clashing : NTScalarMultiChannelBuilder.t :=
  NTScalarMultiChannelBuilder.configure
    [NTScalarMultiChannelBuilder.AddAlarm;
     NTScalarMultiChannelBuilder.Add "severity" (Some (Scalar pvDouble))]
    NTScalarMultiChannelBuilder.new.

(** * Properties *)

(** ** The compatibility predicate of NTScalarMultiChannel *)

Section IsCompatible.
Variable ntField : NTField.t.
Variable s : Structure.

Lemma ScalarType_neq_false (a b : ScalarType) :
  ScalarType_neq a b = false <-> a = b.
Proof.
  unfold ScalarType_neq. rewrite negb_false_iff. apply bool_decide_eq_true.
Qed.

Lemma value_check :
  is_null (getField_ScalarArray s "value") = false
  <-> exists elementType, getField s "value" = Some (ScalarArray elementType).
Proof.
  unfold getField_ScalarArray.
  destruct (getField s "value") as [[]|]; simpl; split;
    try discriminate; try (intros [? ?]; discriminate); eauto.
Qed.

Lemma channelName_check :
  (exists elementType,
      getField_ScalarArray s "channelName" = Some elementType
      /\ ScalarType_neq elementType pvString = false)
  <-> getField s "channelName" = Some (ScalarArray pvString).
Proof.
  unfold getField_ScalarArray. split.
  - intros (e & He & Hn). apply ScalarType_neq_false in Hn. subst e.
    destruct (getField s "channelName") as [[]|]; simpl in He; congruence.
  - intros ->. exists pvString. split; [reflexivity | now apply ScalarType_neq_false].
Qed.

Lemma optional_array_check (name : string) (t : ScalarType) :
  negb (is_null (getField s name))
    && NTScalarMultiChannel.null_or_other (getField_ScalarArray s name) t = false
  <-> optional_matches s name (fun f => f = ScalarArray t).
Proof.
  unfold optional_matches, getField_ScalarArray.
  destruct (getField s name) as [f|]; simpl.
  - destruct f; simpl; try (split; [discriminate | intros H; specialize (H _ eq_refl); discriminate]).
    rewrite ScalarType_neq_false. split.
    + intros -> f [= <-]. reflexivity.
    + intros H. specialize (H _ eq_refl). congruence.
  - split; [intros _ f; discriminate | reflexivity].
Qed.

Lemma optional_scalar_check (name : string) (t : ScalarType) :
  negb (is_null (getField s name))
    && NTScalarMultiChannel.null_or_other (getField_Scalar s name) t = false
  <-> optional_matches s name (fun f => f = Scalar t).
Proof.
  unfold optional_matches, getField_Scalar.
  destruct (getField s name) as [f|]; simpl.
  - destruct f; simpl; try (split; [discriminate | intros H; specialize (H _ eq_refl); discriminate]).
    rewrite ScalarType_neq_false. split.
    + intros -> f [= <-]. reflexivity.
    + intros H. specialize (H _ eq_refl). congruence.
  - split; [intros _ f; discriminate | reflexivity].
Qed.

Lemma optional_standard_check (name : string) (check : Field -> bool) :
  match getField s name with
  | Some f => negb (check f)
  | None => false
  end = false
  <-> optional_matches s name (fun f => check f = true).
Proof.
  unfold optional_matches.
  destruct (getField s name) as [f|]; simpl.
  - rewrite negb_false_iff. split.
    + intros H f' [= <-]. exact H.
    + intros H. apply H. reflexivity.
  - split; [intros _ f; discriminate | reflexivity].
Qed.

(** The predicate is the conjunction of its checks. *)
Lemma isCompatible_iff :
  NTScalarMultiChannel.isCompatible ntField (Some s) = true
  <-> mandatory_fields_match s /\ optional_fields_match ntField s.
Proof.
  unfold mandatory_fields_match, optional_fields_match.
  rewrite <- value_check, <- channelName_check.
  rewrite <- !optional_array_check, <- optional_scalar_check.
  rewrite <- !optional_standard_check.
  unfold NTScalarMultiChannel.isCompatible.
  destruct (is_null (getField_ScalarArray s "value"));
    [split; [discriminate | intros [[? _] _]; discriminate] |].
  destruct (getField_ScalarArray s "channelName") as [e|];
    [| split; [discriminate | intros [[_ (? & ? & _)] _]; discriminate]].
  destruct (ScalarType_neq e pvString) eqn:He;
    [split; [discriminate | intros [[_ (e' & [= <-] & He')] _]; congruence] |].
  repeat match goal with
  | |- context [if ?c then false else _] =>
      destruct c;
        [split; [discriminate | intros [_ H]; decompose [and] H; discriminate] |]
  end.
  split; [intros _ | reflexivity].
  repeat split; eauto.
Qed.
End IsCompatible.

(** C1.  For every structure [s], [NTScalarMultiChannel::isCompatible]
    returns [false] whenever a mandatory field ([value] as a scalar array,
    [channelName] as a scalar array of strings) is missing or has another
    type, and returns [true] whenever the mandatory fields match and every
    optional field that is present (severity, status, message,
    secondsPastEpoch, nanoseconds, userTag, descriptor, alarm, timeStamp)
    has its required type, whichever optional fields are present. *)
Theorem isCompatible_mandatory_and_optional (ntField : NTField.t) (s : Structure) :
  (~ mandatory_fields_match s ->
   NTScalarMultiChannel.isCompatible ntField (Some s) = false)
  /\ (mandatory_fields_match s -> optional_fields_match ntField s ->
      NTScalarMultiChannel.isCompatible ntField (Some s) = true).
Proof.
  split.
  - intros Hm.
    destruct (NTScalarMultiChannel.isCompatible ntField (Some s)) eqn:E;
      [| reflexivity].
    apply isCompatible_iff in E. destruct E as [E _]. contradiction.
  - intros Hm Ho. apply isCompatible_iff. split; assumption.
Qed.

Lemma isCompatible_mandatory_and_optional_witness :
  NTScalarMultiChannel.isCompatible sample_ntField
    (Some sample_schema_without_channelName) = false
  /\ NTScalarMultiChannel.isCompatible sample_ntField (Some sample_schema) = true.
Proof.
  split.
  - apply (proj1 (isCompatible_mandatory_and_optional sample_ntField
                    sample_schema_without_channelName)).
    intros [_ H]. vm_compute in H. discriminate.
  - apply (proj2 (isCompatible_mandatory_and_optional sample_ntField
                    sample_schema)).
    + split; [exists pvInt |]; reflexivity.
    + repeat split; intros f H; vm_compute in H; try discriminate.
      injection H as <-. reflexivity.
Defined.

(** A present optional field of another type makes the predicate fail. *)
Lemma isCompatible_optional_mismatch (ntField : NTField.t) (s : Structure) :
  ~ optional_fields_match ntField s ->
  NTScalarMultiChannel.isCompatible ntField (Some s) = false.
Proof.
  intros Ho.
  destruct (NTScalarMultiChannel.isCompatible ntField (Some s)) eqn:E;
    [| reflexivity].
  apply isCompatible_iff in E. destruct E as [_ E]. contradiction.
Qed.

(** ** Null inputs *)

(** C2.  [NTScalarMultiChannel::isCompatible] returns [false] on a null
    schema and on a null instance; [NTNDArray::is_compatible] calls
    [getSubField] through its argument before any test, so on a null
    instance it does not return [false]. *)
Theorem compatibility_of_null (ntField : NTField.t) :
  NTScalarMultiChannel.isCompatible ntField None = false
  /\ NTScalarMultiChannel.isCompatible_pv ntField None = false
  /\ NTNDArray.is_compatible ntField None = NullDereference.
Proof. repeat split. Qed.

(** ** The schema a NTScalarMultiChannel builder creates *)

Section FillArrays.
Import NTScalarMultiChannelBuilder.

Lemma incr_if_b2n (flag : bool) (n : nat) : incr_if flag n = n + Nat.b2n flag.
Proof. destruct flag; simpl; lia. Qed.

Lemma filled_start (n : nat) :
  filled [] n (Arrays (replicate n "") (replicate n None) 0).
Proof. repeat split. Qed.

Lemma insert_first_free {A} (done : list A) (x d : A) (r i : nat) :
  i = length done ->
  <[i := x]> (done ++ d :: replicate r d) = (done ++ [x]) ++ replicate r d.
Proof.
  intros ->. rewrite insert_app_r_alt by lia.
  rewrite Nat.sub_diag. simpl. now rewrite <- app_assoc.
Qed.

Lemma put_filled w r name field a :
  filled w (S r) a -> filled (w ++ [(name, field)]) r (put name field a).
Proof.
  intros (Hn & Hf & Hi). unfold put, filled; simpl.
  rewrite Hn, Hf, Hi, !map_app; simpl.
  rewrite !insert_first_free by (now rewrite length_map).
  rewrite length_app; simpl.
  repeat split; lia.
Qed.

Lemma put_if_filled w r flag name field a :
  filled w (r + Nat.b2n flag) a ->
  filled (w ++ (if flag then [(name, field)] else [])) r
         (put_if flag name field a).
Proof.
  destruct flag; simpl.
  - rewrite Nat.add_1_r. apply put_filled.
  - now rewrite Nat.add_0_r, app_nil_r.
Qed.

Lemma copy_extra_filled (b : t) (n : nat) :
  forall i w r a,
    filled w (n + r) a ->
    i + n = length (extraFieldNames b) ->
    i + n = length (extraFields b) ->
    filled (w ++ zip (drop i (extraFieldNames b)) (drop i (extraFields b)))
           r (copy_extra n i b a).
Proof.
  induction n as [|n IH]; intros i w r a Hfilled Hnames Hfields; simpl.
  - rewrite !drop_ge by lia. simpl. now rewrite app_nil_r.
  - destruct (lookup_lt_is_Some_2 (extraFieldNames b) i) as [name Hname]; [lia|].
    destruct (lookup_lt_is_Some_2 (extraFields b) i) as [field Hfield]; [lia|].
    rewrite (list_lookup_total_correct _ _ _ Hname).
    rewrite (list_lookup_total_correct _ _ _ Hfield).
    rewrite (drop_S _ _ _ Hname), (drop_S _ _ _ Hfield). simpl.
    change ((name, field) :: ?l) with ([(name, field)] ++ l).
    rewrite app_assoc. apply IH; [| lia | lia].
    apply put_filled. exact Hfilled.
Qed.
End FillArrays.

Section CreateStructure.
Import NTScalarMultiChannelBuilder.
Variable standardField : StandardField.t.

Lemma map_non_null_optional_field flag name f :
  map non_null (optional_field flag name f)
  = if flag then [(name, Some f)] else [].
Proof. now destruct flag. Qed.

Lemma filled_entries w w' r a : filled w r a -> w = w' -> filled w' r a.
Proof. now intros H <-. Qed.

(** The arrays are filled exactly, in the order of the stores. *)
Lemma fill_filled (b : t) :
  extras_aligned b -> filled (stored_entries standardField b) 0 (fill standardField b).
Proof.
  intros Haligned. unfold fill. rewrite !incr_if_b2n.
  eapply filled_entries.
  - apply (copy_extra_filled b _ 0); [| reflexivity | exact Haligned].
    do 10 apply put_if_filled. do 2 apply put_filled.
    match goal with
    | |- filled _ ?n (Arrays (replicate ?m _) _ _) =>
        replace m with n by lia
    end.
    apply filled_start.
  - unfold stored_entries, expected_members.
    rewrite !map_app, !map_non_null_optional_field, <- !app_assoc.
    reflexivity.
Qed.

Lemma pair_fields_non_null (l : list (string * Field)) :
  pair_fields (map fst (map non_null l)) (map snd (map non_null l)) = Some l.
Proof.
  induction l as [|[n f] l IH]; simpl; [reflexivity|]. now rewrite IH.
Qed.

Lemma pair_fields_null (fields : list FieldConstPtr) :
  None ∈ fields -> forall names, pair_fields names fields = None.
Proof.
  induction fields as [|[f|] fields IH]; intros Hin names.
  - now apply elem_of_nil in Hin.
  - apply elem_of_cons in Hin as [Heq | Hin]; [discriminate|].
    destruct names; simpl; [reflexivity|]. now rewrite IH.
  - destruct names; reflexivity.
Qed.

Lemma zip_non_null (extras : list (string * Field)) :
  zip (map fst extras) (map (fun e => Some (snd e)) extras)
  = map non_null extras.
Proof.
  induction extras as [|[n f] extras IH]; simpl; [reflexivity|].
  now rewrite IH.
Qed.

Lemma expected_members_extras (b : t) (extras : list (string * Field)) :
  expected_members standardField b [] ++ extras
  = expected_members standardField b extras.
Proof.
  unfold expected_members. rewrite app_nil_r, <- !app_assoc. reflexivity.
Qed.

(** With the extra fields [extras], none of them null, the schema has
    the expected members and the builder is reset. *)
Lemma createStructure_members (b : t) (extras : list (string * Field)) :
  extraFieldNames b = map fst extras ->
  extraFields b = map (fun e => Some (snd e)) extras ->
  createStructure standardField b
  = (Ret (mkStructure URI (expected_members standardField b extras)), reset b).
Proof.
  intros Hnames Hfields.
  assert (Haligned : extras_aligned b).
  { unfold extras_aligned. now rewrite Hnames, Hfields, !length_map. }
  destruct (fill_filled b Haligned) as (Hn & Hf & _).
  unfold createStructure, FieldCreate_createStructure.
  rewrite Hn, Hf. simpl replicate. rewrite !app_nil_r.
  unfold stored_entries.
  rewrite Hnames, Hfields, zip_non_null, <- map_app, expected_members_extras.
  now rewrite pair_fields_non_null.
Qed.

(** With a null extra field, the factory throws and the builder keeps its
    state. *)
Lemma createStructure_null (b : t) :
  extras_aligned b ->
  None ∈ extraFields b ->
  createStructure standardField b = (InvalidArgument, b).
Proof.
  intros Haligned Hnull.
  destruct (fill_filled b Haligned) as (Hn & Hf & _).
  unfold createStructure, FieldCreate_createStructure.
  rewrite Hn, Hf. simpl replicate. rewrite !app_nil_r.
  rewrite pair_fields_null; [reflexivity|].
  unfold stored_entries. rewrite map_app, elem_of_app. right.
  unfold extras_aligned in Haligned.
  now rewrite snd_zip by lia.
Qed.

(** The calls of a configuration act on the two vectors in call order. *)
Lemma configure_extras (cs : list call) :
  forall b,
    extraFieldNames (configure cs b) = extraFieldNames b ++ map fst (added cs)
    /\ extraFields (configure cs b) = extraFields b ++ map snd (added cs).
Proof.
  induction cs as [|c cs IH]; intros b; simpl.
  - now rewrite !app_nil_r.
  - destruct (IH (invoke c b)) as [-> ->].
    destruct c; simpl; rewrite <- ?app_assoc; auto.
Qed.

(** A flag is set after a configuration exactly when it was set before or
    the configuration calls its setter. *)
Lemma configure_flags (cs : list call) :
  forall b,
    descriptor (configure cs b) = descriptor b || called AddDescriptor cs
    /\ alarm (configure cs b) = alarm b || called AddAlarm cs
    /\ timeStamp (configure cs b) = timeStamp b || called AddTimeStamp cs
    /\ severity (configure cs b) = severity b || called AddSeverity cs
    /\ status (configure cs b) = status b || called AddStatus cs
    /\ message (configure cs b) = message b || called AddMessage cs
    /\ secondsPastEpoch (configure cs b)
       = secondsPastEpoch b || called AddSecondsPastEpoch cs
    /\ nanoseconds (configure cs b) = nanoseconds b || called AddNanoseconds cs
    /\ userTag (configure cs b) = userTag b || called AddUserTag cs
    /\ isConnected (configure cs b) = isConnected b || called AddIsConnected cs.
Proof.
  induction cs as [|c cs IH]; intros b; simpl.
  - rewrite !orb_false_r. repeat split.
  - destruct (IH (invoke c b))
      as (-> & -> & -> & -> & -> & -> & -> & -> & -> & ->).
    destruct c; simpl; rewrite ?orb_true_r; repeat split.
Qed.

Lemma configure_aligned (cs : list call) :
  extras_aligned (configure cs new).
Proof.
  unfold extras_aligned.
  destruct (configure_extras cs new) as [-> ->].
  now rewrite !length_app, !length_map.
Qed.
End CreateStructure.

(** C6.  For every configuration whose added fields are not null and
    whose field names come out distinct and not empty, the schema
    [createStructure()] produces lists [value] (a scalar array of the
    configured element type), then [channelName] (a string array), then
    the optional fields whose flag is set, in the order descriptor, alarm,
    timeStamp, severity, status, message, secondsPastEpoch, nanoseconds,
    userTag, isConnected, then the extra fields in the order they were
    added; its id is the NTScalarMultiChannel URI. *)
Theorem createStructure_field_order
    (standardField : StandardField.t)
    (cs : list NTScalarMultiChannelBuilder.call)
    (extras : list (string * Field)) :
  added cs = map non_null extras ->
  well_named
    (expected_members standardField
       (NTScalarMultiChannelBuilder.configure cs NTScalarMultiChannelBuilder.new)
       extras) ->
  let b := NTScalarMultiChannelBuilder.configure cs NTScalarMultiChannelBuilder.new in
  NTScalarMultiChannelBuilder.createStructure standardField b
  = (Ret (mkStructure "epics:nt/NTScalarMultiChannel:1.0"
            (expected_members standardField b extras)),
     NTScalarMultiChannelBuilder.new).
Proof.
  intros Hadded _ b.
  destruct (configure_extras cs NTScalarMultiChannelBuilder.new) as [Hn Hf].
  simpl in Hn, Hf. rewrite Hadded in Hn, Hf.
  rewrite map_map in Hn, Hf.
  apply (createStructure_members standardField b extras); assumption.
Qed.

Lemma createStructure_field_order_witness :
  added sample_calls = map non_null sample_extras
  /\ well_named
       (expected_members sample_standardField
          (NTScalarMultiChannelBuilder.configure sample_calls
             NTScalarMultiChannelBuilder.new)
          sample_extras)
  /\ NTScalarMultiChannelBuilder.createStructure sample_standardField
       (NTScalarMultiChannelBuilder.configure sample_calls
          NTScalarMultiChannelBuilder.new)
     = (Ret (mkStructure "epics:nt/NTScalarMultiChannel:1.0"
               [("value", ScalarArray pvInt);
                ("channelName", ScalarArray pvString);
                ("timeStamp", StructureField sample_timeStamp);
                ("severity", ScalarArray pvInt);
                ("isConnected", ScalarArray pvBoolean);
                ("first", Scalar pvDouble);
                ("second", Scalar pvString)]),
        NTScalarMultiChannelBuilder.new).
Proof.
  assert (Hnamed : well_named
                     (expected_members sample_standardField
                        (NTScalarMultiChannelBuilder.configure sample_calls
                           NTScalarMultiChannelBuilder.new)
                        sample_extras))
    by run_well_named.
  split; [reflexivity|]. split; [exact Hnamed|].
  exact (createStructure_field_order sample_standardField sample_calls
           sample_extras eq_refl Hnamed).
Defined.

(** C9.  The reset state of the NTScalarMultiChannel builder has the
    [isConnected] flag set, every other optional flag clear, the value
    element type [pvDouble] and no extra field; a new builder is in that
    state, and from it [createStructure()] yields a schema with an
    [isConnected] boolean array after the two mandatory fields. *)
Theorem reset_includes_isConnected
    (standardField : StandardField.t) (b : NTScalarMultiChannelBuilder.t) :
  NTScalarMultiChannelBuilder.reset b
  = NTScalarMultiChannelBuilder.Build pvDouble false false false false false
      false false false false true [] []
  /\ NTScalarMultiChannelBuilder.new = NTScalarMultiChannelBuilder.reset b
  /\ NTScalarMultiChannelBuilder.createStructure standardField
       (NTScalarMultiChannelBuilder.reset b)
     = (Ret (mkStructure "epics:nt/NTScalarMultiChannel:1.0"
               [("value", ScalarArray pvDouble);
                ("channelName", ScalarArray pvString);
                ("isConnected", ScalarArray pvBoolean)]),
        NTScalarMultiChannelBuilder.reset b).
Proof. repeat split. Qed.

(** ** Builders after [createStructure()] *)

(** When [NTScalarMultiChannelBuilder::createStructure()] returns, the
    builder is in its reset state; when the factory throws, the builder is
    as it was. *)
Lemma createStructure_resets
    (standardField : StandardField.t) (b : NTScalarMultiChannelBuilder.t) :
  match NTScalarMultiChannelBuilder.createStructure standardField b with
  | (Ret _, b') => b' = NTScalarMultiChannelBuilder.new
  | (_, b') => b' = b
  end.
Proof.
  unfold NTScalarMultiChannelBuilder.createStructure.
  destruct (FieldCreate_createStructure _ _ _); reflexivity.
Qed.

Lemma createPVStructure_resets
    (standardField : StandardField.t) (b : NTScalarMultiChannelBuilder.t) :
  match NTScalarMultiChannelBuilder.createPVStructure standardField b with
  | (Ret _, b') => b' = NTScalarMultiChannelBuilder.new
  | (_, b') => b' = b
  end.
Proof.
  unfold NTScalarMultiChannelBuilder.createPVStructure.
  pose proof (createStructure_resets standardField b) as H.
  destruct (NTScalarMultiChannelBuilder.createStructure standardField b)
    as [[st| |] b']; exact H.
Qed.

Lemma create_resets
    (standardField : StandardField.t) (b : NTScalarMultiChannelBuilder.t) :
  match NTScalarMultiChannel.create standardField b with
  | (Ret _, b') => b' = NTScalarMultiChannelBuilder.new
  | (_, b') => b' = b
  end.
Proof.
  unfold NTScalarMultiChannel.create.
  pose proof (createPVStructure_resets standardField b) as H.
  destruct (NTScalarMultiChannelBuilder.createPVStructure standardField b)
    as [[pv| |] b']; exact H.
Qed.

(** C3.  [createStructure()], [createPVStructure()] and [create()] of the
    NTScalarMultiChannel builder leave it in its default state whenever
    they return.  [NTNDArrayBuilder::createStructure()] assigns no member:
    after [addDescriptor()] it returns a schema with a [descriptor] field
    and leaves the flag set, and a second call returns that same schema,
    which is not the default one. *)
Theorem NTNDArrayBuilder_createStructure_keeps_state
    (standardField : StandardField.t) (naming : Naming.t) :
  (forall b st b',
      NTScalarMultiChannelBuilder.createStructure standardField b = (Ret st, b') ->
      b' = NTScalarMultiChannelBuilder.new
      /\ NTScalarMultiChannelBuilder.createStructure standardField b'
         = (Ret (mkStructure "epics:nt/NTScalarMultiChannel:1.0"
                   [("value", ScalarArray pvDouble);
                    ("channelName", ScalarArray pvString);
                    ("isConnected", ScalarArray pvBoolean)]),
            NTScalarMultiChannelBuilder.new))
  /\ (forall b pv b',
         NTScalarMultiChannelBuilder.createPVStructure standardField b = (Ret pv, b') ->
         b' = NTScalarMultiChannelBuilder.new)
  /\ (forall b w b',
         NTScalarMultiChannel.create standardField b = (Ret w, b') ->
         b' = NTScalarMultiChannelBuilder.new)
  /\ (forall b,
         snd (NTNDArrayBuilder.createStructure standardField naming b) = b)
  /\ let b := NTNDArrayBuilder.addDescriptor NTNDArrayBuilder.new in
     exists st st0,
       NTNDArrayBuilder.createStructure standardField naming b = (Ret st, b)
       /\ NTNDArrayBuilder.descriptor b = true
       /\ NTNDArrayBuilder.descriptor (NTNDArrayBuilder.reset b) = false
       /\ NTNDArrayBuilder.createStructure standardField naming
            (snd (NTNDArrayBuilder.createStructure standardField naming b))
          = (Ret st, b)
       /\ NTNDArrayBuilder.createStructure standardField naming
            NTNDArrayBuilder.new = (Ret st0, NTNDArrayBuilder.new)
       /\ getField st "descriptor" = Some (Scalar pvString)
       /\ getField st0 "descriptor" = None.
Proof.
  split; [| split; [| split; [| split]]].
  - intros b st b' H.
    pose proof (createStructure_resets standardField b) as R.
    rewrite H in R. subst b'. split; reflexivity.
  - intros b pv b' H.
    pose proof (createPVStructure_resets standardField b) as R.
    rewrite H in R. exact R.
  - intros b w b' H.
    pose proof (create_resets standardField b) as R.
    rewrite H in R. exact R.
  - reflexivity.
  - intros b.
    assert (Hb : exists st, NTNDArrayBuilder.build standardField naming b = Ret st
                            /\ getField st "descriptor" = Some (Scalar pvString))
      by (vm_compute; eexists; split; reflexivity).
    assert (H0 : exists st0,
               NTNDArrayBuilder.build standardField naming NTNDArrayBuilder.new
               = Ret st0
               /\ getField st0 "descriptor" = None)
      by (vm_compute; eexists; split; reflexivity).
    destruct Hb as (st & Hst & Hd). destruct H0 as (st0 & Hst0 & Hd0).
    exists st, st0. unfold NTNDArrayBuilder.createStructure.
    rewrite Hst0. simpl snd. rewrite Hst.
    repeat split; assumption.
Qed.

(** ** Wrapping what the builder creates *)

Section LookupExpected.
Variable standardField : StandardField.t.

Lemma lookup_optional_field_other name flag n f rest :
  String.eqb n name = false ->
  lookup_field name (optional_field flag n f ++ rest) = lookup_field name rest.
Proof. intros H. destruct flag; simpl; [now rewrite H | reflexivity]. Qed.

Lemma lookup_optional_field_same flag n f rest :
  lookup_field n (optional_field flag n f ++ rest)
  = if flag then Some f else lookup_field n rest.
Proof. destruct flag; simpl; [now rewrite String.eqb_refl | reflexivity]. Qed.

Lemma lookup_unlisted_extras (extras : list (string * Field)) (name : string) :
  (forall n, n ∈ inspected_names -> lookup_field n extras = None) ->
  name ∈ inspected_names ->
  forall f, lookup_field name extras = Some f -> False.
Proof. intros H Hin f Hf. rewrite (H _ Hin) in Hf. discriminate. Qed.

(** A schema with the expected members is compatible, provided the
    standard alarm and time stamp pass their own predicates and no extra
    field takes a name the predicate looks up. *)
Lemma isCompatible_expected_members
    (ntField : NTField.t) (b : NTScalarMultiChannelBuilder.t)
    (extras : list (string * Field)) :
  NTField.isAlarm ntField
    (StructureField (StandardField.alarm standardField)) = true ->
  NTField.isTimeStamp ntField
    (StructureField (StandardField.timeStamp standardField)) = true ->
  (forall n, n ∈ inspected_names -> lookup_field n extras = None) ->
  NTScalarMultiChannel.isCompatible ntField
    (Some (mkStructure NTScalarMultiChannel.URI
             (expected_members standardField b extras))) = true.
Proof.
  intros Halarm Htime Hextras. apply isCompatible_iff. split.
  - split; [eexists|]; reflexivity.
  - repeat split;
      (intros f; unfold getField, expected_members; simpl getMembers;
       cbn [app lookup_field String.eqb Ascii.eqb Bool.eqb];
       repeat (rewrite lookup_optional_field_other by reflexivity);
       rewrite ?lookup_optional_field_same;
       match goal with
       | |- context [if ?flag then _ else _] => destruct flag
       end;
       [ intros [= <-]; try reflexivity; assumption
       | repeat (rewrite lookup_optional_field_other by reflexivity);
         intros Hf; exfalso;
         apply (lookup_unlisted_extras _ _ Hextras) in Hf; [exact Hf|];
         unfold inspected_names; repeat constructor ]).
Qed.
End LookupExpected.

(** A compatible instance is wrapped. *)
Lemma wrap_compatible (ntField : NTField.t) (pv : PVStructure) :
  NTScalarMultiChannel.isCompatible ntField (Some (getStructure pv)) = true ->
  exists w,
    NTScalarMultiChannel.wrap ntField (Some pv) = Ret (Some w)
    /\ NTScalarMultiChannel.construct (Some pv) = Ret w
    /\ NTScalarMultiChannel.pvNTScalarMultiChannel w = Some pv.
Proof.
  intros H.
  unfold NTScalarMultiChannel.wrap, NTScalarMultiChannel.wrapUnsafe,
    NTScalarMultiChannel.isCompatible_pv.
  rewrite H. simpl. eexists. repeat split.
Qed.

(** Extra fields do not spoil the round trip as long as none of them is
    null or takes a name the predicate looks up. *)
Lemma wrap_created_with_extras
    (standardField : StandardField.t) (ntField : NTField.t)
    (b : NTScalarMultiChannelBuilder.t) (extras : list (string * Field)) :
  NTField.isAlarm ntField
    (StructureField (StandardField.alarm standardField)) = true ->
  NTField.isTimeStamp ntField
    (StructureField (StandardField.timeStamp standardField)) = true ->
  NTScalarMultiChannelBuilder.extraFieldNames b = map fst extras ->
  NTScalarMultiChannelBuilder.extraFields b = map (fun e => Some (snd e)) extras ->
  (forall n, n ∈ inspected_names -> lookup_field n extras = None) ->
  exists pv w,
    NTScalarMultiChannel.create standardField b
    = (Ret (Some w), NTScalarMultiChannelBuilder.new)
    /\ NTScalarMultiChannel.pvNTScalarMultiChannel w = Some pv
    /\ getStructure pv
       = mkStructure NTScalarMultiChannel.URI
           (expected_members standardField b extras)
    /\ NTScalarMultiChannel.isCompatible ntField (Some (getStructure pv)) = true
    /\ NTScalarMultiChannel.wrap ntField (Some pv) = Ret (Some w).
Proof.
  intros Halarm Htime Hnames Hfields Hextras.
  pose proof (createStructure_members standardField b extras Hnames Hfields) as Hst.
  pose proof (isCompatible_expected_members standardField ntField b extras
                Halarm Htime Hextras) as Hc.
  set (st := mkStructure NTScalarMultiChannel.URI
               (expected_members standardField b extras)) in *.
  destruct (wrap_compatible ntField (mkPVStructure st) Hc) as (w & Hw & Hcons & Hpv).
  exists (mkPVStructure st), w.
  unfold NTScalarMultiChannel.create,
    NTScalarMultiChannelBuilder.createPVStructure.
  change NTScalarMultiChannelBuilder.URI with NTScalarMultiChannel.URI in Hst.
  fold st in Hst. rewrite Hst.
  unfold PVDataCreate_createPVStructure. rewrite Hcons.
  repeat split; assumption.
Qed.

(** C5.  For every combination of the optional-field flags and every value
    element type, with no extra field, [create()] returns a wrapper, the
    schema of the instance it wraps is compatible, and [wrap] of that
    instance is not empty: it returns the same wrapper. *)
Theorem wrap_of_created_never_empty
    (standardField : StandardField.t) (ntField : NTField.t)
    (b : NTScalarMultiChannelBuilder.t) :
  NTField.isAlarm ntField
    (StructureField (StandardField.alarm standardField)) = true ->
  NTField.isTimeStamp ntField
    (StructureField (StandardField.timeStamp standardField)) = true ->
  NTScalarMultiChannelBuilder.extraFieldNames b = [] ->
  NTScalarMultiChannelBuilder.extraFields b = [] ->
  exists pv w,
    NTScalarMultiChannel.create standardField b
    = (Ret (Some w), NTScalarMultiChannelBuilder.new)
    /\ NTScalarMultiChannel.pvNTScalarMultiChannel w = Some pv
    /\ fst (NTScalarMultiChannelBuilder.createStructure standardField b)
       = Ret (getStructure pv)
    /\ NTScalarMultiChannel.isCompatible ntField (Some (getStructure pv)) = true
    /\ NTScalarMultiChannel.wrap ntField (Some pv) = Ret (Some w).
Proof.
  intros Halarm Htime Hnames Hfields.
  destruct (wrap_created_with_extras standardField ntField b [] Halarm Htime
              Hnames Hfields (fun n _ => eq_refl))
    as (pv & w & Hcreate & Hpv & Hst & Hc & Hw).
  exists pv, w. repeat split; try assumption.
  rewrite (createStructure_members standardField b [] Hnames Hfields).
  simpl. now rewrite Hst.
Qed.

Lemma wrap_of_created_never_empty_witness :
  exists pv w,
    NTScalarMultiChannel.create sample_standardField sample_builder
    = (Ret (Some w), NTScalarMultiChannelBuilder.new)
    /\ NTScalarMultiChannel.pvNTScalarMultiChannel w = Some pv
    /\ fst (NTScalarMultiChannelBuilder.createStructure sample_standardField
              sample_builder)
       = Ret (getStructure pv)
    /\ NTScalarMultiChannel.isCompatible sample_ntField
         (Some (getStructure pv)) = true
    /\ NTScalarMultiChannel.wrap sample_ntField (Some pv) = Ret (Some w).
Proof.
  apply (wrap_of_created_never_empty sample_standardField sample_ntField
           sample_builder); reflexivity.
Defined.

(** ** The wrapping factories *)

Lemma wrapUnsafe_non_null (pv : PVStructure) :
  exists w,
    NTScalarMultiChannel.wrapUnsafe (Some pv) = Ret (Some w)
    /\ NTScalarMultiChannel.pvNTScalarMultiChannel w = Some pv.
Proof.
  unfold NTScalarMultiChannel.wrapUnsafe. simpl. eexists. split; reflexivity.
Qed.

Lemma wrap_returns (ntField : NTField.t) (structure : PVStructurePtr) :
  returned (NTScalarMultiChannel.wrap ntField structure).
Proof.
  unfold NTScalarMultiChannel.wrap.
  destruct (NTScalarMultiChannel.isCompatible_pv ntField structure) eqn:E; simpl.
  - destruct structure as [pv|]; [| discriminate].
    destruct (wrapUnsafe_non_null pv) as (w & -> & _). now exists (Some w).
  - now exists None.
Qed.

Lemma wrap_empty_iff (ntField : NTField.t) (structure : PVStructurePtr) :
  NTScalarMultiChannel.wrap ntField structure = Ret None
  <-> NTScalarMultiChannel.isCompatible_pv ntField structure = false.
Proof.
  unfold NTScalarMultiChannel.wrap.
  destruct (NTScalarMultiChannel.isCompatible_pv ntField structure) eqn:E; simpl.
  - destruct structure as [pv|]; [| discriminate].
    destruct (wrapUnsafe_non_null pv) as (w & -> & _).
    split; discriminate.
  - split; reflexivity.
Qed.

Lemma narrow_empty_iff (structure : PVStructurePtr) :
  NTNDArray.narrow structure = Ret None
  <-> structure = None
      \/ exists pv, structure = Some pv
                    /\ NTNDArray.is_a (Some (getStructure pv)) = Ret false.
Proof.
  unfold NTNDArray.narrow, NTNDArray.narrow_unsafe, NTNDArray.is_a.
  destruct structure as [pv|]; simpl.
  - destruct (String.eqb (getID (getStructure pv)) NTNDArray.URI) eqn:E;
      simpl; split.
    + discriminate.
    + intros [? | (pv' & [= <-] & H)]; [discriminate|].
      rewrite E in H. discriminate.
    + intros _. right. exists pv. now rewrite E.
    + reflexivity.
  - split; [now left | reflexivity].
Qed.

(** C4, as the code has it.  [NTScalarMultiChannel::wrap] always returns,
    and returns the empty pointer exactly when [isCompatible] is false of
    the instance; [wrapUnsafe] makes no check and yields a wrapper of any
    non-null instance.  [NTNDArray::narrow] returns the empty pointer
    exactly when the instance is null or [is_a] is false of its schema (the
    id is not the NTNDArray URI); [is_compatible] takes no part in it.
    [narrow_unsafe] always yields a wrapper. *)
Theorem wrap_checks_isCompatible_narrow_checks_is_a
    (ntField : NTField.t) (structure : PVStructurePtr) :
  returned (NTScalarMultiChannel.wrap ntField structure)
  /\ (NTScalarMultiChannel.wrap ntField structure = Ret None
      <-> NTScalarMultiChannel.isCompatible_pv ntField structure = false)
  /\ (forall pv, exists w,
         NTScalarMultiChannel.wrapUnsafe (Some pv) = Ret (Some w)
         /\ NTScalarMultiChannel.pvNTScalarMultiChannel w = Some pv)
  /\ returned (NTNDArray.narrow structure)
  /\ (NTNDArray.narrow structure = Ret None
      <-> structure = None
          \/ exists pv, structure = Some pv
                        /\ getID (getStructure pv) <> NTNDArray.URI)
  /\ NTNDArray.narrow_unsafe structure = Some (NTNDArray.Build structure).
Proof.
  split; [apply wrap_returns|].
  split; [apply wrap_empty_iff|].
  split; [apply wrapUnsafe_non_null|].
  split.
  { unfold NTNDArray.narrow. destruct structure as [pv|]; simpl.
    - destruct (String.eqb _ _); simpl; eexists; reflexivity.
    - eexists; reflexivity. }
  split; [| reflexivity].
  rewrite narrow_empty_iff. unfold NTNDArray.is_a.
  split; (intros [H | (pv & Hpv & H)]; [now left | right; exists pv; split; [exact Hpv|]]).
  - injection H as H. now apply String.eqb_neq.
  - f_equal. now apply String.eqb_neq.
Qed.

Lemma wrap_checks_isCompatible_narrow_checks_is_a_witness :
  NTScalarMultiChannel.wrap sample_ntField
    (Some (mkPVStructure sample_schema_without_channelName)) = Ret None
  /\ NTNDArray.narrow (Some (mkPVStructure sample_schema)) = Ret None.
Proof.
  split.
  - apply (proj1 (proj2 (wrap_checks_isCompatible_narrow_checks_is_a
                           sample_ntField
                           (Some (mkPVStructure sample_schema_without_channelName))))).
    reflexivity.
  - apply (proj1 (proj2 (proj2 (proj2 (proj2
             (wrap_checks_isCompatible_narrow_checks_is_a
                sample_ntField (Some (mkPVStructure sample_schema)))))))).
    right. exists (mkPVStructure sample_schema). split; [reflexivity|].
    discriminate.
Defined.

(** C4 as stated fails for NTNDArray: an instance whose schema carries the
    NTNDArray id and no field is not compatible, and [narrow] wraps it. *)
Lemma narrow_wraps_incompatible :
  NTNDArray.is_compatible sample_ntField (Some sample_id_only) = Ret false
  /\ NTNDArray.narrow (Some sample_id_only)
     = Ret (Some (NTNDArray.Build (Some sample_id_only))).
Proof. split; reflexivity. Qed.

(** Conversely an instance that passes [is_compatible] under another id is
    turned away by [narrow]. *)
Lemma narrow_refuses_compatible :
  let pv := mkPVStructure
              (mkStructure "structure"
                 (getMembers (getStructure (sample_ndarray NTNDArrayBuilder.ntAttrStr)))) in
  NTNDArray.is_compatible sample_ntField (Some pv) = Ret true
  /\ NTNDArray.narrow (Some pv) = Ret None.
Proof. split; reflexivity. Qed.

(** ** [NTNDArray::is_compatible] *)

Section IsCompatibleNDArray.
Variable ntField : NTField.t.
Variable pv : PVStructure.

(** The typed lookups agree with the checked cast. *)
Lemma getSubField_PVStructureArray_cast (name : string) :
  is_null (getSubField_PVStructureArray pv name)
  = is_null (getSubField_as PVStructureArray_c pv name).
Proof.
  unfold getSubField_PVStructureArray, getSubField_as, dynamic_pointer_cast.
  now destruct (getSubField pv name) as [[]|].
Qed.

Lemma getSubField_PVStructure_cast (name : string) :
  is_null (getSubField_PVStructure pv name)
  = is_null (getSubField_as PVStructure_c pv name).
Proof.
  unfold getSubField_PVStructure, getSubField_as, dynamic_pointer_cast.
  now destruct (getSubField pv name) as [[]|].
Qed.

Lemma string_compare_zero (a b : string) :
  Z.eqb (string_compare a b) 0 = String.eqb a b.
Proof.
  unfold string_compare.
  destruct (String.eqb_spec a b) as [-> | Hne].
  - pose proof (String.compare_antisym b b) as H.
    destruct (String.compare b b); simpl in H;
      [reflexivity | discriminate | discriminate].
  - destruct (String.compare a b) eqn:E; try reflexivity.
    apply String.compare_eq_iff in E. contradiction.
Qed.

(** The test on the attribute id, [!id.compare("ntAttrStr") != 0], holds
    exactly when the id is the nine characters [ntAttrStr]. *)
Lemma attribute_test (id : string) :
  negb (Z.eqb (int_of_bool (int_not (string_compare id "ntAttrStr"))) 0)
  = String.eqb id "ntAttrStr".
Proof.
  unfold int_not. rewrite string_compare_zero.
  now destruct (String.eqb id "ntAttrStr").
Qed.

Lemma cast_present (PVT : PVClass) (name : string) (f : Field) :
  getSubField pv name = Some f ->
  derived_from (runtime_class f) PVT = true ->
  is_null (getSubField_as PVT pv name) = false.
Proof.
  intros Hf Hc. unfold getSubField_as, dynamic_pointer_cast.
  now rewrite Hf, Hc.
Qed.

Lemma descriptor_test :
  optional_matches (getStructure pv) "descriptor" (fun f => f = Scalar pvString) ->
  negb (is_null (getSubField pv "descriptor"))
    && is_null (getSubField_as PVString pv "descriptor") = false.
Proof.
  intros H. unfold getSubField_as, getSubField, optional_matches in *.
  destruct (getField (getStructure pv) "descriptor") as [f|]; [| reflexivity].
  now rewrite (H f eq_refl).
Qed.

Lemma standard_test (check : Field -> bool) (name : string) :
  optional_matches (getStructure pv) name (fun f => check f = true) ->
  NTNDArray.present_and_not check (getSubField pv name) = false.
Proof.
  intros H. unfold getSubField, optional_matches in *.
  destruct (getField (getStructure pv) name) as [f|]; [| reflexivity].
  simpl. now rewrite (H f eq_refl).
Qed.

(** What remains of the predicate once the checks before the lookup of
    [dimension] have passed. *)
Lemma is_compatible_from_dimension :
  reaches_dimension ntField pv ->
  NTNDArray.is_compatible ntField (Some pv)
  = match getSubField_PVStructureArray pv "dimension" with
    | None => NullDereference
    | Some dimension =>
        if negb (String.eqb (getID dimension) "dimension_t") then Ret false
        else if is_null (getSubField_as PVInt pv "uniqueId") then Ret false
        else if NTNDArray.present_and_not (NTField.isTimeStamp ntField)
                  (getSubField pv "dataTimeStamp") then Ret false
        else match getSubField_PVStructureArray pv "attribute" with
             | None => NullDereference
             | Some attribute =>
                 Ret (negb (String.eqb (getID attribute) "ntAttrStr"))
             end
    end.
Proof.
  intros (((id & members & Hvalue) & Hcompressed & Huncompressed
           & codec & Hcodec & Hname & idp & membersp & Hparameters)
          & Hdesc & Halarm & Htime & Hdisplay).
  unfold NTNDArray.is_compatible.
  rewrite (cast_present PVUnion_c "value" _ Hvalue eq_refl).
  rewrite (descriptor_test Hdesc).
  rewrite (standard_test _ _ Halarm), (standard_test _ _ Htime),
    (standard_test _ _ Hdisplay).
  rewrite (cast_present PVLong "compressedSize" _ Hcompressed eq_refl).
  rewrite (cast_present PVLong "uncompressedSize" _ Huncompressed eq_refl).
  unfold getSubField_PVStructure at 1. rewrite Hcodec.
  unfold getSubField_as at 1 2. unfold getSubField at 1 2.
  simpl getStructure. rewrite Hname, Hparameters. simpl dynamic_pointer_cast.
  simpl is_null. cbv iota.
  destruct (getSubField_PVStructureArray pv "dimension") as [dimension|];
    [| reflexivity].
  rewrite string_compare_zero.
  destruct (negb (String.eqb (getID dimension) "dimension_t")); [reflexivity|].
  destruct (is_null (getSubField_as PVInt pv "uniqueId")); [reflexivity|].
  destruct (NTNDArray.present_and_not _ _); [reflexivity|].
  destruct (getSubField_PVStructureArray pv "attribute") as [attribute|];
    [| reflexivity].
  rewrite attribute_test.
  now destruct (String.eqb (getID attribute) "ntAttrStr").
Qed.

Lemma structure_array_found (name : string) (element : Structure) :
  getSubField pv name = Some (StructureArray element) ->
  getSubField_PVStructureArray pv name = Some element.
Proof. intros H. unfold getSubField_PVStructureArray. now rewrite H. Qed.

Lemma structure_array_missing (name : string) :
  (forall element, getSubField pv name <> Some (StructureArray element)) ->
  getSubField_PVStructureArray pv name = None.
Proof.
  intros H. unfold getSubField_PVStructureArray.
  destruct (getSubField pv name) as [[]|]; try reflexivity.
  now destruct (H element).
Qed.

(** What remains once the checks before the lookup of [attribute] have
    passed. *)
Lemma is_compatible_from_attribute :
  reaches_attribute ntField pv ->
  NTNDArray.is_compatible ntField (Some pv)
  = match getSubField_PVStructureArray pv "attribute" with
    | None => NullDereference
    | Some attribute => Ret (negb (String.eqb (getID attribute) "ntAttrStr"))
    end.
Proof.
  intros (Hreach & (dimension & Hdimension & Hid) & Hunique & Hdata).
  rewrite (is_compatible_from_dimension Hreach).
  rewrite (structure_array_found _ _ Hdimension), Hid.
  rewrite (cast_present PVInt "uniqueId" _ Hunique eq_refl).
  rewrite (standard_test _ _ Hdata).
  reflexivity.
Qed.

Lemma cast_found (PVT : PVClass) (name : string) :
  is_null (getSubField_as PVT pv name) = false ->
  exists f, getSubField pv name = Some f
            /\ derived_from (runtime_class f) PVT = true.
Proof.
  unfold getSubField_as, dynamic_pointer_cast.
  destruct (getSubField pv name) as [f|]; [| discriminate].
  destruct (derived_from (runtime_class f) PVT) eqn:E; [| discriminate].
  intros _. now exists f.
Qed.

Lemma class_union (f : Field) :
  derived_from (runtime_class f) PVUnion_c = true ->
  exists id members, f = Union id members.
Proof. destruct f; simpl; try discriminate. intros _. eauto. Qed.

Lemma class_scalar (f : Field) (T : ScalarType) :
  derived_from (runtime_class f) (PVScalarValue T) = true -> f = Scalar T.
Proof.
  destruct f; simpl; try discriminate.
  intros H. apply bool_decide_eq_true in H. now subst.
Qed.

Lemma descriptor_test_passed :
  negb (is_null (getSubField pv "descriptor"))
    && is_null (getSubField_as PVString pv "descriptor") = false ->
  optional_matches (getStructure pv) "descriptor" (fun f => f = Scalar pvString).
Proof.
  unfold getSubField_as, getSubField, optional_matches, dynamic_pointer_cast.
  destruct (getField (getStructure pv) "descriptor") as [f|];
    [| intros _ f'; discriminate].
  destruct (derived_from (runtime_class f) PVString) eqn:E;
    [| discriminate].
  intros _ f' [= <-]. now apply class_scalar.
Qed.

Lemma standard_test_passed (check : Field -> bool) (name : string) :
  NTNDArray.present_and_not check (getSubField pv name) = false ->
  optional_matches (getStructure pv) name (fun f => check f = true).
Proof.
  unfold getSubField, optional_matches.
  destruct (getField (getStructure pv) name) as [f|];
    [| intros _ f'; discriminate].
  simpl. intros H f' [= <-]. now apply negb_false_iff.
Qed.

(** Short of the lookup of [dimension] the predicate can only return
    [false]. *)
Lemma is_compatible_false_or_reaches_dimension :
  NTNDArray.is_compatible ntField (Some pv) = Ret false
  \/ reaches_dimension ntField pv.
Proof.
  unfold NTNDArray.is_compatible.
  destruct (is_null (getSubField_as PVUnion_c pv "value")) eqn:Hvalue;
    [now left|].
  destruct (negb (is_null (getSubField pv "descriptor")) && _) eqn:Hdesc;
    [now left|].
  destruct (NTNDArray.present_and_not _ (getSubField pv "alarm")) eqn:Halarm;
    [now left|].
  destruct (NTNDArray.present_and_not _ (getSubField pv "timeStamp")) eqn:Htime;
    [now left|].
  destruct (NTNDArray.present_and_not _ (getSubField pv "display")) eqn:Hdisplay;
    [now left|].
  destruct (is_null (getSubField_as PVLong pv "compressedSize")) eqn:Hcompressed;
    [now left|].
  destruct (is_null (getSubField_as PVLong pv "uncompressedSize")) eqn:Huncompressed;
    [now left|].
  destruct (getSubField_PVStructure pv "codec") as [codec|] eqn:Hcodec;
    [| now left].
  destruct (is_null (getSubField_as PVString codec "name")) eqn:Hname;
    [now left|].
  destruct (is_null (getSubField_as PVUnion_c codec "parameters")) eqn:Hparameters;
    [now left|].
  right.
  apply cast_found in Hvalue as (fv & Hvalue & Hcv).
  apply class_union in Hcv as (id & members & ->).
  apply cast_found in Hcompressed as (fc & Hcompressed & Hcc).
  apply class_scalar in Hcc as ->.
  apply cast_found in Huncompressed as (fu & Huncompressed & Hcu).
  apply class_scalar in Hcu as ->.
  unfold getSubField_PVStructure in Hcodec.
  destruct (getSubField pv "codec") as [[]|] eqn:Hc; try discriminate.
  injection Hcodec as <-.
  unfold getSubField_as, getSubField, dynamic_pointer_cast in Hname, Hparameters.
  simpl getStructure in Hname, Hparameters.
  destruct (getField s "name") as [fn|] eqn:Hfn; [| discriminate].
  destruct (derived_from (runtime_class fn) PVString) eqn:Hcn; [| discriminate].
  apply class_scalar in Hcn as ->.
  destruct (getField s "parameters") as [fp|] eqn:Hfp; [| discriminate].
  destruct (derived_from (runtime_class fp) PVUnion_c) eqn:Hcp; [| discriminate].
  apply class_union in Hcp as (idp & membersp & ->).
  split; [split; [| split; [| split]] | split; [| split; [| split]]].
  - now exists id, members.
  - assumption.
  - assumption.
  - exists s. split; [exact Hc|]. split; [assumption|].
    now exists idp, membersp.
  - now apply descriptor_test_passed.
  - now apply standard_test_passed.
  - now apply standard_test_passed.
  - now apply standard_test_passed.
Qed.
End IsCompatibleNDArray.

Lemma sample_ndarray_reaches_attribute (attributeId : string) :
  reaches_attribute sample_ntField (sample_ndarray attributeId).
Proof. run_reaches. Qed.

(** C7 as stated fails: an instance that passes every earlier check and
    whose attribute structures carry the id [ntAttrStr] is turned down by
    the test on that id; with the id the builder gives them it passes. *)
Lemma attribute_test_can_fail :
  reaches_attribute sample_ntField (sample_ndarray "ntAttrStr")
  /\ NTNDArray.is_compatible sample_ntField (Some (sample_ndarray "ntAttrStr"))
     = Ret false
  /\ NTNDArray.is_compatible sample_ntField
       (Some (sample_ndarray "uri:ev4:nt/2014/pwd:NTAttribute"))
     = Ret true.
Proof.
  split; [apply sample_ndarray_reaches_attribute|]. split; reflexivity.
Qed.

(** C7, as the code has it.  For every instance that reaches the test on
    the attribute id, the predicate returns [false] when that id is the
    literal [ntAttrStr] and [true] for every other id, the id of
    NTAttribute or not: the id of the candidate is compared, with a literal
    that spells the name of the constant. *)
Theorem attribute_test_compares_with_literal
    (ntField : NTField.t) (pv : PVStructure) (attribute : Structure) :
  reaches_attribute ntField pv ->
  getSubField pv "attribute" = Some (StructureArray attribute) ->
  NTNDArray.is_compatible ntField (Some pv)
  = Ret (negb (String.eqb (getID attribute) "ntAttrStr")).
Proof.
  intros Hreach Hattribute.
  rewrite (is_compatible_from_attribute ntField pv Hreach).
  now rewrite (structure_array_found pv _ _ Hattribute).
Qed.

Lemma attribute_test_compares_with_literal_witness :
  reaches_attribute sample_ntField (sample_ndarray "not an attribute")
  /\ NTNDArray.is_compatible sample_ntField
       (Some (sample_ndarray "not an attribute")) = Ret true.
Proof.
  split; [run_reaches|].
  apply (attribute_test_compares_with_literal sample_ntField
           (sample_ndarray "not an attribute")
           (mkStructure "not an attribute"
              [("name", Scalar pvString); ("value", Union "any" []);
               ("descriptor", Scalar pvString); ("sourceType", Scalar pvInt);
               ("source", Scalar pvString)])).
  - run_reaches.
  - reflexivity.
Defined.

(** C8 as stated fails: an instance can have every mandatory sub-field that
    comes before [dimension], lack [dimension], and still be answered with
    [false], when an optional sub-field tested on the way (here
    [descriptor]) is there with another type. *)
Lemma is_compatible_false_before_dimension :
  mandatory_before_dimension sample_without_dimension_bad_descriptor
  /\ (forall element,
        getSubField sample_without_dimension_bad_descriptor "dimension"
        <> Some (StructureArray element))
  /\ NTNDArray.is_compatible sample_ntField
       (Some sample_without_dimension_bad_descriptor) = Ret false.
Proof.
  split; [run_reaches|]. split; [| reflexivity].
  intros element H. vm_compute in H. discriminate H.
Qed.

(** C8, as the code has it.  On a non-null instance with no [dimension]
    sub-field of structure-array type, the predicate calls through the
    null handle the lookup yields whenever every earlier check passes (the
    mandatory sub-fields are there and the optional ones, if there,
    conform), and returns [false] otherwise.  On one that passes every
    check before the lookup of [attribute] and has no [attribute]
    sub-field of structure-array type, it calls through that null handle. *)
Theorem is_compatible_dereferences_null_handle
    (ntField : NTField.t) (pv : PVStructure) :
  ((forall element, getSubField pv "dimension" <> Some (StructureArray element)) ->
   (reaches_dimension ntField pv ->
    NTNDArray.is_compatible ntField (Some pv) = NullDereference)
   /\ (~ reaches_dimension ntField pv ->
       NTNDArray.is_compatible ntField (Some pv) = Ret false))
  /\ (reaches_attribute ntField pv ->
      (forall element, getSubField pv "attribute" <> Some (StructureArray element)) ->
      NTNDArray.is_compatible ntField (Some pv) = NullDereference).
Proof.
  split.
  - intros Hmissing. split.
    + intros Hreach.
      rewrite (is_compatible_from_dimension ntField pv Hreach).
      now rewrite (structure_array_missing pv _ Hmissing).
    + intros Hstop.
      destruct (is_compatible_false_or_reaches_dimension ntField pv)
        as [Hfalse | Hreach]; [exact Hfalse | contradiction].
  - intros Hreach Hmissing.
    rewrite (is_compatible_from_attribute ntField pv Hreach).
    now rewrite (structure_array_missing pv _ Hmissing).
Qed.

Lemma is_compatible_dereferences_null_handle_witness :
  NTNDArray.is_compatible sample_ntField
    (Some (without_field "dimension" (sample_ndarray NTNDArrayBuilder.ntAttrStr)))
  = NullDereference
  /\ NTNDArray.is_compatible sample_ntField
       (Some (without_field "attribute" (sample_ndarray NTNDArrayBuilder.ntAttrStr)))
     = NullDereference.
Proof.
  split.
  - apply (proj1 (is_compatible_dereferences_null_handle sample_ntField
                    (without_field "dimension"
                       (sample_ndarray NTNDArrayBuilder.ntAttrStr)))).
    + intros element H. vm_compute in H. discriminate H.
    + run_reaches.
  - apply (proj2 (is_compatible_dereferences_null_handle sample_ntField
                    (without_field "attribute"
                       (sample_ndarray NTNDArrayBuilder.ntAttrStr)))).
    + run_reaches.
    + intros element H. vm_compute in H. discriminate H.
Defined.

(** A sub-field of another type under the name is as good as none. *)
Lemma is_compatible_dimension_of_other_type :
  let pv := mkPVStructure
              (mkStructure NTNDArray.URI
                 (getMembers (getStructure
                    (without_field "dimension"
                       (sample_ndarray NTNDArrayBuilder.ntAttrStr)))
                  ++ [("dimension", ScalarArray pvInt)])) in
  NTNDArray.is_compatible sample_ntField (Some pv) = NullDereference.
Proof. reflexivity. Qed.

(** ** The typed column accessor of NTTable *)

(** C10.  Whenever the untyped [getColumn] returns, the typed accessor
    returns: the empty handle when the untyped one yields no field, the
    empty handle again when the class of the field it yields is neither
    [PVT] nor derived from it, and the field itself otherwise. *)
Theorem getColumn_as_never_fails
    (getColumn : string -> outcome PVFieldPtr)
    (PVT : PVClass) (columnName : string) :
  (getColumn columnName = Ret None ->
   NTTable.getColumn_as getColumn PVT columnName = Ret None)
  /\ (forall f,
        getColumn columnName = Ret (Some f) ->
        derived_from (runtime_class f) PVT = false ->
        NTTable.getColumn_as getColumn PVT columnName = Ret None)
  /\ (forall f,
        getColumn columnName = Ret (Some f) ->
        derived_from (runtime_class f) PVT = true ->
        NTTable.getColumn_as getColumn PVT columnName = Ret (Some f))
  /\ (returned (getColumn columnName) ->
      returned (NTTable.getColumn_as getColumn PVT columnName)).
Proof.
  unfold NTTable.getColumn_as. repeat split.
  - intros ->. reflexivity.
  - intros f -> Hc. simpl. now rewrite Hc.
  - intros f -> Hc. simpl. now rewrite Hc.
  - intros [[f|] ->]; simpl; eexists; reflexivity.
Qed.

Lemma getColumn_as_never_fails_witness :
  NTTable.getColumn_as sample_getColumn PVIntArray "velocity" = Ret None
  /\ NTTable.getColumn_as sample_getColumn PVIntArray "position" = Ret None
  /\ NTTable.getColumn_as sample_getColumn PVScalarArray_c "position"
     = Ret (Some (ScalarArray pvDouble)).
Proof.
  pose proof (getColumn_as_never_fails sample_getColumn PVIntArray "velocity")
    as (Hmissing & _).
  pose proof (getColumn_as_never_fails sample_getColumn PVIntArray "position")
    as (_ & Hother & _).
  pose proof (getColumn_as_never_fails sample_getColumn PVScalarArray_c "position")
    as (_ & _ & Hsame & _).
  split; [| split].
  - apply Hmissing. reflexivity.
  - apply (Hother (ScalarArray pvDouble)); reflexivity.
  - apply (Hsame (ScalarArray pvDouble)); reflexivity.
Defined.

(** * Further properties *)

(** ** The state and the failures of the NTScalarMultiChannel builder *)

Lemma configure_valueType (cs : list NTScalarMultiChannelBuilder.call) :
  forall b,
    NTScalarMultiChannelBuilder.valueType
      (NTScalarMultiChannelBuilder.configure cs b)
    = last_value cs (NTScalarMultiChannelBuilder.valueType b).
Proof.
  induction cs as [|c cs IH]; intros b; simpl; [reflexivity|].
  rewrite IH. now destruct c.
Qed.

Lemma builder_eta (b : NTScalarMultiChannelBuilder.t) :
  b = NTScalarMultiChannelBuilder.Build
        (NTScalarMultiChannelBuilder.valueType b)
        (NTScalarMultiChannelBuilder.descriptor b)
        (NTScalarMultiChannelBuilder.alarm b)
        (NTScalarMultiChannelBuilder.timeStamp b)
        (NTScalarMultiChannelBuilder.severity b)
        (NTScalarMultiChannelBuilder.status b)
        (NTScalarMultiChannelBuilder.message b)
        (NTScalarMultiChannelBuilder.secondsPastEpoch b)
        (NTScalarMultiChannelBuilder.nanoseconds b)
        (NTScalarMultiChannelBuilder.userTag b)
        (NTScalarMultiChannelBuilder.isConnected b)
        (NTScalarMultiChannelBuilder.extraFieldNames b)
        (NTScalarMultiChannelBuilder.extraFields b).
Proof. now destruct b. Qed.

(** X1.  The state a new builder reaches through any sequence of calls is
    fixed by the type of the last [value] call ([pvDouble] without one), by
    which of the [add...] setters were called, however often and in
    whatever order, and by the added fields in call order.  The
    [isConnected] flag is set whether or not [addIsConnected] is called. *)
Theorem builder_state_of_configuration
    (cs : list NTScalarMultiChannelBuilder.call) :
  NTScalarMultiChannelBuilder.configure cs NTScalarMultiChannelBuilder.new
  = NTScalarMultiChannelBuilder.Build
      (last_value cs pvDouble)
      (called NTScalarMultiChannelBuilder.AddDescriptor cs)
      (called NTScalarMultiChannelBuilder.AddAlarm cs)
      (called NTScalarMultiChannelBuilder.AddTimeStamp cs)
      (called NTScalarMultiChannelBuilder.AddSeverity cs)
      (called NTScalarMultiChannelBuilder.AddStatus cs)
      (called NTScalarMultiChannelBuilder.AddMessage cs)
      (called NTScalarMultiChannelBuilder.AddSecondsPastEpoch cs)
      (called NTScalarMultiChannelBuilder.AddNanoseconds cs)
      (called NTScalarMultiChannelBuilder.AddUserTag cs)
      true
      (map fst (added cs))
      (map snd (added cs)).
Proof.
  rewrite (builder_eta (NTScalarMultiChannelBuilder.configure cs _)).
  destruct (configure_flags cs NTScalarMultiChannelBuilder.new)
    as (-> & -> & -> & -> & -> & -> & -> & -> & -> & ->).
  destruct (configure_extras cs NTScalarMultiChannelBuilder.new) as [-> ->].
  rewrite configure_valueType. reflexivity.
Qed.

Lemma non_null_or_null (l : list (string * FieldConstPtr)) :
  (exists extras, l = map non_null extras) \/ None ∈ map snd l.
Proof.
  induction l as [|[n [f|]] l IH]; simpl.
  - left. now exists [].
  - destruct IH as [(extras & ->) | Hnull].
    + left. now exists ((n, f) :: extras).
    + right. now apply list_elem_of_further.
  - right. apply list_elem_of_here.
Qed.

Lemma non_null_not_null (extras : list (string * Field)) :
  None ∉ map snd (map non_null extras).
Proof.
  induction extras as [|[n f] extras IH]; simpl.
  - apply not_elem_of_nil.
  - intros [H | H]%elem_of_cons; [discriminate | contradiction].
Qed.

(** The outcome of [createStructure()] after a configuration. *)
Lemma createStructure_of_configuration
    (standardField : StandardField.t)
    (cs : list NTScalarMultiChannelBuilder.call) :
  let b := NTScalarMultiChannelBuilder.configure cs
             NTScalarMultiChannelBuilder.new in
  (exists extras,
      added cs = map non_null extras
      /\ NTScalarMultiChannelBuilder.createStructure standardField b
         = (Ret (mkStructure NTScalarMultiChannelBuilder.URI
                   (expected_members standardField b extras)),
            NTScalarMultiChannelBuilder.new))
  \/ (None ∈ map snd (added cs)
      /\ NTScalarMultiChannelBuilder.createStructure standardField b
         = (InvalidArgument, b)).
Proof.
  intros b.
  destruct (configure_extras cs NTScalarMultiChannelBuilder.new) as [Hn Hf].
  simpl in Hn, Hf. fold b in Hn, Hf.
  destruct (non_null_or_null (added cs)) as [(extras & Hadded) | Hnull].
  - left. exists extras. split; [exact Hadded|].
    apply (createStructure_members standardField b extras).
    + now rewrite Hn, Hadded, map_map.
    + now rewrite Hf, Hadded, map_map.
  - right. split; [exact Hnull|].
    apply createStructure_null; [apply configure_aligned | now rewrite Hf].
Qed.



(** X3.  With a null pointer among the added fields, [createStructure()],
    [createPVStructure()] and [create()] all fail with the factory's
    invalid-argument error and the builder keeps its whole configuration:
    [reset()] is not reached. *)
Theorem create_with_null_extra_keeps_configuration
    (standardField : StandardField.t)
    (cs : list NTScalarMultiChannelBuilder.call) :
  None ∈ map snd (added cs) ->
  let b := NTScalarMultiChannelBuilder.configure cs
             NTScalarMultiChannelBuilder.new in
  NTScalarMultiChannelBuilder.createStructure standardField b
  = (InvalidArgument, b)
  /\ NTScalarMultiChannelBuilder.createPVStructure standardField b
     = (InvalidArgument, b)
  /\ NTScalarMultiChannel.create standardField b = (InvalidArgument, b).
Proof.
  intros Hnull b.
  destruct (createStructure_of_configuration standardField cs)
    as [(extras & Hadded & Hst) | (_ & Hthrow)]; fold b in Hst || fold b in Hthrow.
  - rewrite Hadded in Hnull. now destruct (non_null_not_null extras).
  - unfold NTScalarMultiChannel.create,
      NTScalarMultiChannelBuilder.createPVStructure.
    rewrite Hthrow. repeat split.
Qed.

Lemma create_with_null_extra_keeps_configuration_witness :
  let b := NTScalarMultiChannelBuilder.configure sample_calls_with_null
             NTScalarMultiChannelBuilder.new in
  NTScalarMultiChannelBuilder.alarm b = true
  /\ NTScalarMultiChannelBuilder.createStructure sample_standardField b
     = (InvalidArgument, b)
  /\ NTScalarMultiChannel.create sample_standardField b = (InvalidArgument, b).
Proof.
  intros b. split; [reflexivity|].
  destruct (create_with_null_extra_keeps_configuration
              sample_standardField sample_calls_with_null)
    as (H1 & _ & H3).
  - simpl. apply list_elem_of_here.
  - split; [exact H1 | exact H3].
Defined.

(** ** What [NTScalarMultiChannel::isCompatible] reads *)

Lemma isCompatible_agree (ntField : NTField.t) (s s' : Structure) :
  (forall n, n ∈ inspected_names -> getField s n = getField s' n) ->
  NTScalarMultiChannel.isCompatible ntField (Some s)
  = NTScalarMultiChannel.isCompatible ntField (Some s').
Proof.
  intros H.
  unfold NTScalarMultiChannel.isCompatible, getField_ScalarArray,
    getField_Scalar.
  repeat match goal with
         | |- context [getField s ?n] =>
             rewrite (H n) by (unfold inspected_names; repeat constructor)
         end.
  reflexivity.
Qed.

(** X4.  The predicate reads eleven lookups and nothing else: two schemas
    that give the same answer for [value], [channelName], [severity],
    [status], [message], [secondsPastEpoch], [nanoseconds], [userTag],
    [descriptor], [alarm] and [timeStamp] get the same verdict, whatever
    their ids, their [isConnected] and their other fields. *)
Theorem isCompatible_reads_only_inspected_names
    (ntField : NTField.t) (s s' : Structure) :
  (forall n, n ∈ inspected_names -> getField s n = getField s' n) ->
  NTScalarMultiChannel.isCompatible ntField (Some s)
  = NTScalarMultiChannel.isCompatible ntField (Some s').
Proof.
  intros H.
  unfold NTScalarMultiChannel.isCompatible, getField_ScalarArray,
    getField_Scalar.
  rewrite (H "value"), (H "channelName"), (H "severity"), (H "status"),
    (H "message"), (H "secondsPastEpoch"), (H "nanoseconds"), (H "userTag"),
    (H "descriptor"), (H "alarm"), (H "timeStamp")
    by (unfold inspected_names; repeat constructor).
  reflexivity.
Qed.

Lemma isCompatible_reads_only_inspected_names_witness :
  NTScalarMultiChannel.isCompatible sample_ntField (Some sample_schema)
  = NTScalarMultiChannel.isCompatible sample_ntField
      (Some sample_schema_reordered).
Proof.
  apply (isCompatible_reads_only_inspected_names sample_ntField
           sample_schema sample_schema_reordered).
  intros n Hn. unfold inspected_names in Hn.
  repeat (apply elem_of_cons in Hn as [-> | Hn]; [reflexivity|]).
  now apply elem_of_nil in Hn.
Defined.

Lemma lookup_field_absent (name : string) (l : list (string * Field)) :
  name ∉ map fst l -> lookup_field name l = None.
Proof.
  induction l as [|[n f] l IH]; simpl; intros H; [reflexivity|].
  destruct (String.eqb_spec n name) as [-> | Hne].
  - destruct H. apply list_elem_of_here.
  - apply IH. intros Hin. apply H. now apply list_elem_of_further.
Qed.

Lemma lookup_field_permutation (name : string) (l l' : list (string * Field)) :
  Permutation l l' -> NoDup (map fst l) ->
  lookup_field name l = lookup_field name l'.
Proof.
  induction 1 as [| [n f] l l' Hp IH | [n f] [m g] l | l l' l'' Hp IH Hp' IH'];
    intros Hnd; simpl in *.
  - reflexivity.
  - apply NoDup_cons in Hnd as [_ Hnd]. now rewrite IH.
  - apply NoDup_cons in Hnd as [Hm _].
    destruct (String.eqb_spec n name) as [-> | Hn];
      destruct (String.eqb_spec m name) as [-> | Hm']; try reflexivity.
    destruct Hm. apply list_elem_of_here.
  - rewrite IH by exact Hnd. apply IH'.
    assert (HP : Permutation (map fst l) (map fst l'))
      by now apply Permutation.Permutation_map.
    now rewrite <- HP.
Qed.

(** X5.  The verdict does not depend on the order of the fields: two
    schemas whose member lists are permutations of each other, with no
    name occurring twice, get the same verdict. *)
Theorem isCompatible_ignores_field_order
    (ntField : NTField.t) (id id' : string)
    (members members' : list (string * Field)) :
  Permutation members members' ->
  NoDup (map fst members) ->
  NTScalarMultiChannel.isCompatible ntField (Some (mkStructure id members))
  = NTScalarMultiChannel.isCompatible ntField (Some (mkStructure id' members')).
Proof.
  intros Hp Hnd. apply isCompatible_agree. intros n _.
  unfold getField. simpl. now apply lookup_field_permutation.
Qed.

Lemma isCompatible_ignores_field_order_witness :
  NTScalarMultiChannel.isCompatible sample_ntField
    (Some (mkStructure "a"
             [("value", ScalarArray pvInt);
              ("channelName", ScalarArray pvString);
              ("severity", ScalarArray pvInt)]))
  = NTScalarMultiChannel.isCompatible sample_ntField
      (Some (mkStructure "b"
               [("severity", ScalarArray pvInt);
                ("value", ScalarArray pvInt);
                ("channelName", ScalarArray pvString)])).
Proof.
  apply (isCompatible_ignores_field_order sample_ntField "a" "b").
  - change [("severity", ScalarArray pvInt); ("value", ScalarArray pvInt);
            ("channelName", ScalarArray pvString)]
      with ([("severity", ScalarArray pvInt)]
            ++ [("value", ScalarArray pvInt);
                ("channelName", ScalarArray pvString)]).
    change [("value", ScalarArray pvInt); ("channelName", ScalarArray pvString);
            ("severity", ScalarArray pvInt)]
      with ([("value", ScalarArray pvInt);
             ("channelName", ScalarArray pvString)]
            ++ [("severity", ScalarArray pvInt)]).
    apply Permutation.Permutation_app_comm.
  - simpl.
    repeat (apply NoDup_cons_2;
            [rewrite ?elem_of_cons, elem_of_nil; intros H; decompose [or] H;
             try discriminate; assumption |]).
    apply NoDup_nil_2.
Defined.

(** ** The handles of the NTScalarMultiChannel wrapper *)

(** X6.  On an instance whose schema is compatible, [wrap] returns a
    wrapper in which none of the casts behind the checked handles has
    failed: [value] and [channelName] are resolved, and the handles of
    [severity], [status], [message], [secondsPastEpoch], [nanoseconds],
    [userTag] and [descriptor] are exactly the sub-fields of those names,
    null only when the instance has none. *)
Theorem wrap_resolves_checked_handles
    (ntField : NTField.t) (pv : PVStructure) :
  NTScalarMultiChannel.isCompatible ntField (Some (getStructure pv)) = true ->
  exists w,
    NTScalarMultiChannel.wrap ntField (Some pv) = Ret (Some w)
    /\ NTScalarMultiChannel.pvValue w = getSubField pv "value"
    /\ is_null (NTScalarMultiChannel.pvValue w) = false
    /\ NTScalarMultiChannel.pvChannelName w = getSubField pv "channelName"
    /\ is_null (NTScalarMultiChannel.pvChannelName w) = false
    /\ NTScalarMultiChannel.pvSeverity w = getSubField pv "severity"
    /\ NTScalarMultiChannel.pvStatus w = getSubField pv "status"
    /\ NTScalarMultiChannel.pvMessage w = getSubField pv "message"
    /\ NTScalarMultiChannel.pvSecondsPastEpoch w
       = getSubField pv "secondsPastEpoch"
    /\ NTScalarMultiChannel.pvNanoseconds w = getSubField pv "nanoseconds"
    /\ NTScalarMultiChannel.pvUserTag w = getSubField pv "userTag"
    /\ NTScalarMultiChannel.pvDescriptor w = getSubField pv "descriptor".
Proof.
  intros Hc.
  destruct (wrap_compatible ntField pv Hc) as (w & Hw & Hcons & _).
  exists w. split; [exact Hw|].
  unfold NTScalarMultiChannel.construct in Hcons. injection Hcons as <-.
  apply isCompatible_iff in Hc
    as (((t & Hv) & Hn)
        & Hsev & Hsta & Hmes & Hsec & Hnan & Huse & Hdes & _ & _).
  unfold optional_matches in *.
  simpl. unfold getSubField_as, getSubField.
  rewrite Hv, Hn. simpl.
  repeat split;
    match goal with
    | H : forall f, getField _ ?n = Some f -> _
      |- dynamic_pointer_cast _ (getField _ ?n) = _ =>
        destruct (getField (getStructure pv) n) as [f|];
          [rewrite (H f eq_refl) |]; reflexivity
    end.
Qed.

Lemma wrap_resolves_checked_handles_witness :
  exists w,
    NTScalarMultiChannel.wrap sample_ntField
      (Some (mkPVStructure sample_schema_odd_isConnected)) = Ret (Some w)
    /\ NTScalarMultiChannel.pvSeverity w = Some (ScalarArray pvInt)
    /\ NTScalarMultiChannel.pvStatus w = None.
Proof.
  destruct (wrap_resolves_checked_handles sample_ntField
              (mkPVStructure sample_schema_odd_isConnected) eq_refl)
    as (w & Hw & _ & _ & _ & _ & Hsev & Hsta & _).
  exists w. split; [exact Hw|]. split; [exact Hsev | exact Hsta].
Defined.

Lemma not_boolean_array (f : Field) :
  f <> ScalarArray pvBoolean ->
  derived_from (runtime_class f) PVBooleanArray = false.
Proof.
  intros Hf. destruct f; simpl; try reflexivity.
  apply bool_decide_eq_false. intros <-. now apply Hf.
Qed.

(** X7.  [isConnected] is outside the predicate's reach: when a compatible
    instance has an [isConnected] sub-field that is not a boolean array,
    [wrap] still returns a wrapper, and in it the [isConnected] handle is
    null although the sub-field is there. *)
Theorem wrap_accepts_mistyped_isConnected
    (ntField : NTField.t) (pv : PVStructure) (f : Field) :
  NTScalarMultiChannel.isCompatible ntField (Some (getStructure pv)) = true ->
  getSubField pv "isConnected" = Some f ->
  f <> ScalarArray pvBoolean ->
  exists w,
    NTScalarMultiChannel.wrap ntField (Some pv) = Ret (Some w)
    /\ NTScalarMultiChannel.pvIsConnected w = None.
Proof.
  intros Hc Hf Hne.
  destruct (wrap_compatible ntField pv Hc) as (w & Hw & Hcons & _).
  exists w. split; [exact Hw|].
  unfold NTScalarMultiChannel.construct in Hcons. injection Hcons as <-.
  simpl. unfold getSubField_as, dynamic_pointer_cast.
  now rewrite Hf, (not_boolean_array f Hne).
Qed.

Lemma wrap_accepts_mistyped_isConnected_witness :
  exists w,
    NTScalarMultiChannel.wrap sample_ntField
      (Some (mkPVStructure sample_schema_odd_isConnected)) = Ret (Some w)
    /\ NTScalarMultiChannel.pvIsConnected w = None.
Proof.
  apply (wrap_accepts_mistyped_isConnected sample_ntField
           (mkPVStructure sample_schema_odd_isConnected) (ScalarArray pvInt)).
  - reflexivity.
  - reflexivity.
  - discriminate.
Defined.

(** X8.  [attachTimeStamp] and [attachAlarm] of a wrapper hand the helper
    object the sub-field of that name only when it is a structure; when
    the instance has no such sub-field, or one that is not a structure,
    they return [false]. *)
Theorem attach_needs_structure
    (attach : PVField -> bool) (pv : PVStructure)
    (w : NTScalarMultiChannel.t) :
  NTScalarMultiChannel.construct (Some pv) = Ret w ->
  NTScalarMultiChannel.attachTimeStamp attach w
  = match getSubField pv "timeStamp" with
    | Some (StructureField s) => attach (StructureField s)
    | _ => false
    end
  /\ NTScalarMultiChannel.attachAlarm attach w
     = match getSubField pv "alarm" with
       | Some (StructureField s) => attach (StructureField s)
       | _ => false
       end.
Proof.
  intros Hcons.
  unfold NTScalarMultiChannel.construct in Hcons. injection Hcons as <-.
  unfold NTScalarMultiChannel.attachTimeStamp, NTScalarMultiChannel.attachAlarm.
  simpl. unfold getSubField_as, dynamic_pointer_cast.
  split.
  - now destruct (getSubField pv "timeStamp") as [[]|].
  - now destruct (getSubField pv "alarm") as [[]|].
Qed.

Lemma attach_needs_structure_witness :
  exists w,
    NTScalarMultiChannel.construct (Some (mkPVStructure sample_schema)) = Ret w
    /\ NTScalarMultiChannel.attachTimeStamp sample_attach w = true
    /\ NTScalarMultiChannel.attachAlarm sample_attach w = false.
Proof.
  eexists. split; [reflexivity|].
  apply (attach_needs_structure sample_attach (mkPVStructure sample_schema)).
  reflexivity.
Defined.

(** X9.  The wrapper [create()] returns has a handle for each optional
    field exactly when the flag of that field is set in the builder, and
    always one for [value] and [channelName], provided the field names
    are distinct and not empty and no added field is null or takes one of
    the names the wrapper looks up. *)
Theorem created_wrapper_handles_follow_flags
    (standardField : StandardField.t)
    (b : NTScalarMultiChannelBuilder.t) (extras : list (string * Field)) :
  NTScalarMultiChannelBuilder.extraFieldNames b = map fst extras ->
  NTScalarMultiChannelBuilder.extraFields b = map (fun e => Some (snd e)) extras ->
  well_named (expected_members standardField b extras) ->
  (forall n, n ∈ wrapper_names -> lookup_field n extras = None) ->
  NTScalarMultiChannel.create standardField b
  = (Ret (Some
       (NTScalarMultiChannel.Build
          (Some (mkPVStructure
                   (mkStructure NTScalarMultiChannel.URI
                      (expected_members standardField b extras))))
          (handle_if (NTScalarMultiChannelBuilder.timeStamp b)
             (StructureField (StandardField.timeStamp standardField)))
          (handle_if (NTScalarMultiChannelBuilder.alarm b)
             (StructureField (StandardField.alarm standardField)))
          (Some (ScalarArray (NTScalarMultiChannelBuilder.valueType b)))
          (Some (ScalarArray pvString))
          (handle_if (NTScalarMultiChannelBuilder.isConnected b)
             (ScalarArray pvBoolean))
          (handle_if (NTScalarMultiChannelBuilder.severity b) (ScalarArray pvInt))
          (handle_if (NTScalarMultiChannelBuilder.status b) (ScalarArray pvInt))
          (handle_if (NTScalarMultiChannelBuilder.message b)
             (ScalarArray pvString))
          (handle_if (NTScalarMultiChannelBuilder.secondsPastEpoch b)
             (ScalarArray pvLong))
          (handle_if (NTScalarMultiChannelBuilder.nanoseconds b)
             (ScalarArray pvInt))
          (handle_if (NTScalarMultiChannelBuilder.userTag b) (ScalarArray pvInt))
          (handle_if (NTScalarMultiChannelBuilder.descriptor b)
             (Scalar pvString)))),
     NTScalarMultiChannelBuilder.new).
Proof.
  intros Hnames Hfields _ Hextras.
  unfold NTScalarMultiChannel.create,
    NTScalarMultiChannelBuilder.createPVStructure.
  rewrite (createStructure_members standardField b extras Hnames Hfields).
  unfold NTScalarMultiChannel.construct, PVDataCreate_createPVStructure.
  f_equal. f_equal. f_equal.
  unfold NTScalarMultiChannelBuilder.reset, NTScalarMultiChannelBuilder.new.
  f_equal;
    unfold getSubField_as, getSubField, getField, expected_members, handle_if;
    simpl getStructure; simpl getMembers;
    cbn [app lookup_field String.eqb Ascii.eqb Bool.eqb];
    repeat (rewrite lookup_optional_field_other by reflexivity);
    rewrite ?lookup_optional_field_same;
    try reflexivity;
    (match goal with
     | |- context [if ?flag then _ else _] => destruct flag
     end;
     [ reflexivity
     | repeat (rewrite lookup_optional_field_other by reflexivity);
       rewrite Hextras by (unfold wrapper_names; repeat constructor);
       reflexivity ]).
Qed.

Lemma created_wrapper_handles_follow_flags_witness :
  exists w,
    NTScalarMultiChannel.create sample_standardField sample_builder
    = (Ret (Some w), NTScalarMultiChannelBuilder.new)
    /\ NTScalarMultiChannel.pvSeverity w = Some (ScalarArray pvInt)
    /\ NTScalarMultiChannel.pvStatus w = None
    /\ NTScalarMultiChannel.pvTimeStamp w
       = Some (StructureField sample_timeStamp).
Proof.
  eexists. split.
  - apply (created_wrapper_handles_follow_flags sample_standardField
             sample_builder []); [reflexivity | reflexivity | | reflexivity].
    run_well_named.
  - repeat split.
Defined.

(** ** The schema a NTNDArray builder creates *)

Lemma add_extra_fields (b : NTNDArrayBuilder.t) (n : nat) :
  forall i id idSet names fields,
    i + n = length (NTNDArrayBuilder.extraFieldNames b) ->
    i + n = length (NTNDArrayBuilder.extraFields b) ->
    NTNDArrayBuilder.add_extra n i b (FieldBuilder.Build id idSet names fields)
    = FieldBuilder.Build id idSet
        (names ++ drop i (NTNDArrayBuilder.extraFieldNames b))
        (fields ++ drop i (NTNDArrayBuilder.extraFields b)).
Proof.
  induction n as [|n IH]; intros i id idSet names fields Hn Hf; simpl.
  - rewrite !drop_ge by lia. now rewrite !app_nil_r.
  - destruct (lookup_lt_is_Some_2 (NTNDArrayBuilder.extraFieldNames b) i)
      as [name Hname]; [lia|].
    destruct (lookup_lt_is_Some_2 (NTNDArrayBuilder.extraFields b) i)
      as [field Hfield]; [lia|].
    rewrite (list_lookup_total_correct _ _ _ Hname).
    rewrite (list_lookup_total_correct _ _ _ Hfield).
    rewrite (drop_S _ _ _ Hname), (drop_S _ _ _ Hfield).
    unfold FieldBuilder.add. simpl.
    rewrite IH by lia. now rewrite <- !app_assoc.
Qed.

Lemma pair_fields_app_non_null (extras : list (string * Field)) :
  forall names fields members,
    pair_fields names fields = Some members ->
    pair_fields (names ++ map fst extras)
                (fields ++ map (fun e => Some (snd e)) extras)
    = Some (members ++ extras).
Proof.
  induction names as [|n names IH]; intros [|[f|] fields] members H;
    simpl in *; try discriminate.
  - injection H as <-. simpl.
    rewrite <- (pair_fields_non_null extras) at 1.
    now rewrite !map_map.
  - destruct (pair_fields names fields) as [rest|] eqn:E; [| discriminate].
    injection H as <-. now rewrite (IH _ _ E).
Qed.

Lemma pair_fields_app_null (names' : list string) (fields' : list FieldConstPtr) :
  None ∈ fields' ->
  forall names fields,
    pair_fields (names ++ names') (fields ++ fields') = None.
Proof.
  intros Hnull names fields.
  apply pair_fields_null. apply elem_of_app. now right.
Qed.

(** The builder calls up to the last mandatory field leave the field
    builder holding the eight mandatory fields under the NTNDArray id. *)
Lemma build_split
    (standardField : StandardField.t) (naming : Naming.t)
    (b : NTNDArrayBuilder.t) :
  NTNDArrayBuilder.build standardField naming b
  = build_tail standardField naming b
      (builder_holding NTNDArrayBuilder.URI (ndarray_fixed standardField naming)).
Proof. reflexivity. Qed.

Lemma add_if (flag : bool) (name : string) (f : Field) (id : string)
    (held : list (string * Field)) :
  (if flag then FieldBuilder.add name (Some f) (builder_holding id held)
   else builder_holding id held)
  = builder_holding id (held ++ optional_field flag name f).
Proof.
  destruct flag; simpl.
  - unfold FieldBuilder.add, builder_holding. simpl.
    now rewrite !map_app.
  - now rewrite app_nil_r.
Qed.

Lemma build_tail_holding
    (standardField : StandardField.t) (naming : Naming.t)
    (b : NTNDArrayBuilder.t) (id : string) (held : list (string * Field)) :
  ndarray_extras_aligned b ->
  build_tail standardField naming b (builder_holding id held)
  = let held' :=
      held
      ++ optional_field (NTNDArrayBuilder.descriptor b) "descriptor"
           (Scalar pvString)
      ++ optional_field (NTNDArrayBuilder.timeStamp b) "timeStamp"
           (StructureField (StandardField.timeStamp standardField))
      ++ optional_field (NTNDArrayBuilder.alarm b) "alarm"
           (StructureField (StandardField.alarm standardField))
      ++ optional_field (NTNDArrayBuilder.display b) "display"
           (StructureField (StandardField.display standardField)) in
    FieldCreate_createStructure id
      (map fst (map non_null held') ++ NTNDArrayBuilder.extraFieldNames b)
      (map snd (map non_null held') ++ NTNDArrayBuilder.extraFields b).
Proof.
  unfold ndarray_extras_aligned. intros Haligned.
  unfold build_tail, FieldBuilder.add_scalar, NTNDArrayBuilder.timeStamp_field.
  cbv zeta. rewrite !add_if, <- !app_assoc.
  unfold builder_holding at 1.
  rewrite add_extra_fields by (simpl; lia).
  unfold FieldBuilder.createStructure. simpl.
  now destruct (FieldCreate_createStructure _ _ _).
Qed.

(** The structure built for a builder with no null extra field, and the
    failure with one. *)
Lemma build_members
    (standardField : StandardField.t) (naming : Naming.t)
    (b : NTNDArrayBuilder.t) (extras : list (string * Field)) :
  NTNDArrayBuilder.extraFieldNames b = map fst extras ->
  NTNDArrayBuilder.extraFields b = map (fun e => Some (snd e)) extras ->
  NTNDArrayBuilder.build standardField naming b
  = Ret (mkStructure NTNDArrayBuilder.URI
           (ndarray_members standardField naming b extras)).
Proof.
  intros Hnames Hfields.
  rewrite build_split, build_tail_holding
    by (unfold ndarray_extras_aligned; now rewrite Hnames, Hfields, !length_map).
  cbv zeta. unfold FieldCreate_createStructure.
  rewrite Hnames, Hfields.
  rewrite (pair_fields_app_non_null extras _ _ _ (pair_fields_non_null _)).
  unfold ndarray_members. now rewrite <- !app_assoc.
Qed.

Lemma build_null
    (standardField : StandardField.t) (naming : Naming.t)
    (b : NTNDArrayBuilder.t) :
  ndarray_extras_aligned b ->
  None ∈ NTNDArrayBuilder.extraFields b ->
  NTNDArrayBuilder.build standardField naming b = InvalidArgument.
Proof.
  intros Haligned Hnull.
  rewrite build_split, build_tail_holding by exact Haligned.
  cbv zeta. unfold FieldCreate_createStructure.
  now rewrite pair_fields_app_null by exact Hnull.
Qed.

(** X10.  For every state of the NTNDArray builder with no null extra
    field and with field names that are distinct and not empty,
    [createStructure()] returns a schema under the NTNDArray id
    that lists value, codec, compressedSize, uncompressedSize, dimension,
    uniqueId, dataTimeStamp and attribute, then descriptor, timeStamp,
    alarm and display for the flags that are set, in that order, then the
    extra fields in the order they were added. *)
Theorem NTNDArrayBuilder_field_order
    (standardField : StandardField.t) (naming : Naming.t)
    (b : NTNDArrayBuilder.t) (extras : list (string * Field)) :
  NTNDArrayBuilder.extraFieldNames b = map fst extras ->
  NTNDArrayBuilder.extraFields b = map (fun e => Some (snd e)) extras ->
  well_named (ndarray_members standardField naming b extras) ->
  NTNDArrayBuilder.createStructure standardField naming b
  = (Ret (mkStructure "uri:ev4:nt/2014/pwd:NTNDArray"
            (ndarray_members standardField naming b extras)), b).
Proof.
  intros Hnames Hfields _. unfold NTNDArrayBuilder.createStructure.
  now rewrite (build_members standardField naming b extras Hnames Hfields).
Qed.

Lemma NTNDArrayBuilder_field_order_witness :
  NTNDArrayBuilder.createStructure sample_standardField sample_naming
    sample_ndarray_builder
  = (Ret (mkStructure "uri:ev4:nt/2014/pwd:NTNDArray"
            (ndarray_fixed sample_standardField sample_naming
             ++ [("descriptor", Scalar pvString);
                 ("alarm", StructureField sample_alarm);
                 ("comment", Scalar pvString)])),
     sample_ndarray_builder).
Proof.
  apply (NTNDArrayBuilder_field_order sample_standardField sample_naming
           sample_ndarray_builder [("comment", Scalar pvString)]);
    [reflexivity | reflexivity | run_well_named].
Defined.

(** X11.  With a null pointer among the extra fields of the NTNDArray
    builder, [createStructure()], [createPVStructure()] and [create()]
    fail with the factory's invalid-argument error. *)
Theorem NTNDArrayBuilder_null_extra
    (standardField : StandardField.t) (naming : Naming.t)
    (b : NTNDArrayBuilder.t) :
  ndarray_extras_aligned b ->
  None ∈ NTNDArrayBuilder.extraFields b ->
  NTNDArrayBuilder.createStructure standardField naming b = (InvalidArgument, b)
  /\ NTNDArrayBuilder.createPVStructure standardField naming b
     = (InvalidArgument, b)
  /\ NTNDArray.create standardField naming b = (InvalidArgument, b).
Proof.
  intros Haligned Hnull.
  unfold NTNDArray.create, NTNDArrayBuilder.createPVStructure,
    NTNDArrayBuilder.createStructure.
  rewrite (build_null standardField naming b Haligned Hnull).
  repeat split.
Qed.

Lemma NTNDArrayBuilder_null_extra_witness :
  NTNDArrayBuilder.createStructure sample_standardField sample_naming
    sample_ndarray_builder_with_null
  = (InvalidArgument, sample_ndarray_builder_with_null)
  /\ NTNDArray.create sample_standardField sample_naming
       sample_ndarray_builder_with_null
     = (InvalidArgument, sample_ndarray_builder_with_null).
Proof.
  destruct (NTNDArrayBuilder_null_extra sample_standardField sample_naming
              sample_ndarray_builder_with_null)
    as (H1 & _ & H3).
  - reflexivity.
  - simpl. apply list_elem_of_here.
  - split; [exact H1 | exact H3].
Defined.

(** ** Instances a NTNDArray builder creates *)

Lemma lookup_field_app_found name (l1 l2 : list (string * Field)) f :
  lookup_field name l1 = Some f -> lookup_field name (l1 ++ l2) = Some f.
Proof.
  induction l1 as [|[n g] l1 IH]; simpl; [discriminate|].
  destruct (String.eqb n name); [trivial | exact IH].
Qed.

Lemma lookup_field_app_absent name (l1 l2 : list (string * Field)) :
  lookup_field name l1 = None ->
  lookup_field name (l1 ++ l2) = lookup_field name l2.
Proof.
  induction l1 as [|[n g] l1 IH]; simpl; [reflexivity|].
  destruct (String.eqb n name); [discriminate | exact IH].
Qed.

Section CreatedNDArray.
Variable standardField : StandardField.t.
Variable naming : Naming.t.
Variable b : NTNDArrayBuilder.t.
Variable extras : list (string * Field).
Hypothesis Hextras :
  forall n, n ∈ ndarray_optional_names -> lookup_field n extras = None.

Let pv : PVStructure :=
  mkPVStructure (mkStructure NTNDArrayBuilder.URI
                   (ndarray_members standardField naming b extras)).

Lemma created_mandatory_lookups :
  getSubField pv "value" = Some (ndarray_value naming)
  /\ getSubField pv "codec" = Some (StructureField (ndarray_codec naming))
  /\ getSubField pv "compressedSize" = Some (Scalar pvLong)
  /\ getSubField pv "uncompressedSize" = Some (Scalar pvLong)
  /\ getSubField pv "dimension" = Some (StructureArray ndarray_dimension)
  /\ getSubField pv "uniqueId" = Some (Scalar pvInt)
  /\ getSubField pv "dataTimeStamp"
     = Some (StructureField (StandardField.timeStamp standardField))
  /\ getSubField pv "attribute"
     = Some (StructureArray (ndarray_attribute naming)).
Proof.
  unfold pv, getSubField, getField, ndarray_members.
  cbn [getStructure getMembers].
  repeat split; apply lookup_field_app_found; reflexivity.
Qed.

Lemma created_optional_lookups :
  getSubField pv "descriptor"
  = handle_if (NTNDArrayBuilder.descriptor b) (Scalar pvString)
  /\ getSubField pv "timeStamp"
     = handle_if (NTNDArrayBuilder.timeStamp b)
         (StructureField (StandardField.timeStamp standardField))
  /\ getSubField pv "alarm"
     = handle_if (NTNDArrayBuilder.alarm b)
         (StructureField (StandardField.alarm standardField))
  /\ getSubField pv "display"
     = handle_if (NTNDArrayBuilder.display b)
         (StructureField (StandardField.display standardField)).
Proof.
  unfold pv, getSubField, getField, ndarray_members, handle_if.
  cbn [getStructure getMembers].
  repeat split;
    (rewrite lookup_field_app_absent by reflexivity;
     repeat (rewrite lookup_optional_field_other by reflexivity);
     rewrite lookup_optional_field_same;
     match goal with
     | |- context [if ?flag then _ else _] => destruct flag
     end;
     [ reflexivity
     | repeat (rewrite lookup_optional_field_other by reflexivity);
       apply Hextras; unfold ndarray_optional_names; repeat constructor ]).
Qed.
End CreatedNDArray.

(** X12.  Round trip for NTNDArray: for every setting of the four flags,
    with field names that are distinct and not empty and extra fields that
    are not null and do not take the name of an optional field, the
    instance [createPVStructure()] returns passes
    [is_compatible] and is wrapped by [narrow], provided the standard
    alarm, time stamp and display structures pass the predicates of
    NTField. *)
Theorem NTNDArray_created_is_compatible
    (standardField : StandardField.t) (naming : Naming.t)
    (ntField : NTField.t)
    (b : NTNDArrayBuilder.t) (extras : list (string * Field)) :
  NTField.isAlarm ntField
    (StructureField (StandardField.alarm standardField)) = true ->
  NTField.isTimeStamp ntField
    (StructureField (StandardField.timeStamp standardField)) = true ->
  NTField.isDisplay ntField
    (StructureField (StandardField.display standardField)) = true ->
  NTNDArrayBuilder.extraFieldNames b = map fst extras ->
  NTNDArrayBuilder.extraFields b = map (fun e => Some (snd e)) extras ->
  well_named (ndarray_members standardField naming b extras) ->
  (forall n, n ∈ ndarray_optional_names -> lookup_field n extras = None) ->
  exists pv,
    NTNDArrayBuilder.createPVStructure standardField naming b = (Ret pv, b)
    /\ NTNDArray.is_compatible ntField (Some pv) = Ret true
    /\ NTNDArray.narrow (Some pv) = Ret (Some (NTNDArray.Build (Some pv))).
Proof.
  intros Halarm Htime Hdisplay Hnames Hfields _ Hextras.
  set (pv := mkPVStructure
               (mkStructure NTNDArrayBuilder.URI
                  (ndarray_members standardField naming b extras))).
  exists pv. split; [| split].
  - unfold NTNDArrayBuilder.createPVStructure, NTNDArrayBuilder.createStructure.
    now rewrite (build_members standardField naming b extras Hnames Hfields).
  - destruct (created_mandatory_lookups standardField naming b extras)
      as (Hv & Hc & Hcs & Hus & Hd & Hu & Hdt & Ha).
    destruct (created_optional_lookups standardField naming b extras Hextras)
      as (Hde & Hts & Hal & Hdi).
    fold pv in Hv, Hc, Hcs, Hus, Hd, Hu, Hdt, Ha, Hde, Hts, Hal, Hdi.
    assert (Hreach : reaches_attribute ntField pv).
    { unfold reaches_attribute, reaches_dimension, mandatory_before_dimension,
        optional_before_dimension, optional_matches.
      change (getField (getStructure pv)) with (getSubField pv).
      rewrite Hv, Hc, Hcs, Hus, Hd, Hu, Hdt, Hde, Hts, Hal, Hdi.
      unfold handle_if.
      repeat split.
      - eexists. eexists. reflexivity.
      - eexists. split; [reflexivity|]. split; [reflexivity|].
        eexists. eexists. reflexivity.
      - intros f. destruct (NTNDArrayBuilder.descriptor b);
          [now intros [= <-] | discriminate].
      - intros f. destruct (NTNDArrayBuilder.alarm b);
          [now intros [= <-] | discriminate].
      - intros f. destruct (NTNDArrayBuilder.timeStamp b);
          [now intros [= <-] | discriminate].
      - intros f. destruct (NTNDArrayBuilder.display b);
          [now intros [= <-] | discriminate].
      - eexists. split; reflexivity.
      - now intros f [= <-]. }
    rewrite (is_compatible_from_attribute ntField pv Hreach).
    now rewrite (structure_array_found pv _ _ Ha).
  - reflexivity.
Qed.

Lemma NTNDArray_created_is_compatible_witness :
  exists pv,
    NTNDArrayBuilder.createPVStructure sample_standardField sample_naming
      sample_ndarray_builder = (Ret pv, sample_ndarray_builder)
    /\ NTNDArray.is_compatible sample_ntField (Some pv) = Ret true
    /\ NTNDArray.narrow (Some pv) = Ret (Some (NTNDArray.Build (Some pv))).
Proof.
  apply (NTNDArray_created_is_compatible sample_standardField sample_naming
           sample_ntField sample_ndarray_builder [("comment", Scalar pvString)]);
    try reflexivity; [run_well_named |].
  intros n Hn. unfold ndarray_optional_names in Hn.
  repeat (apply elem_of_cons in Hn as [-> | Hn]; [reflexivity|]).
  now apply elem_of_nil in Hn.
Defined.

(** ** What [NTNDArray::is_compatible] accepts and reads *)

Lemma structure_array_found_inv (pv : PVStructure) (name : string)
    (element : Structure) :
  getSubField_PVStructureArray pv name = Some element ->
  getSubField pv name = Some (StructureArray element).
Proof.
  unfold getSubField_PVStructureArray.
  destruct (getSubField pv name) as [[]|]; try discriminate.
  now intros [= ->].
Qed.

(** X13.  [NTNDArray::is_compatible] returns [true] of a non-null instance
    exactly when every check before the lookup of [attribute] passes and
    [attribute] is an array of structures whose id is not the literal
    [ntAttrStr]; it never ends in the factory's error. *)
Theorem is_compatible_true_iff (ntField : NTField.t) (pv : PVStructure) :
  (NTNDArray.is_compatible ntField (Some pv) = Ret true
   <-> reaches_attribute ntField pv
       /\ exists attribute,
            getSubField pv "attribute" = Some (StructureArray attribute)
            /\ getID attribute <> "ntAttrStr")
  /\ NTNDArray.is_compatible ntField (Some pv) <> InvalidArgument.
Proof.
  split.
  - split.
    + intros H.
      destruct (is_compatible_false_or_reaches_dimension ntField pv)
        as [Hfalse | Hreach]; [congruence|].
      rewrite (is_compatible_from_dimension ntField pv Hreach) in H.
      destruct (getSubField_PVStructureArray pv "dimension")
        as [dimension|] eqn:Hd; [| discriminate].
      destruct (String.eqb (getID dimension) "dimension_t") eqn:Hid;
        simpl in H; [| discriminate].
      destruct (is_null (getSubField_as PVInt pv "uniqueId")) eqn:Hu;
        [discriminate|].
      destruct (NTNDArray.present_and_not _ (getSubField pv "dataTimeStamp"))
        eqn:Hdt; [discriminate|].
      destruct (getSubField_PVStructureArray pv "attribute")
        as [attribute|] eqn:Ha; [| discriminate].
      injection H as H. apply negb_true_iff in H.
      apply cast_found in Hu as (fu & Hu & Hcu).
      apply class_scalar in Hcu as ->.
      split.
      * split; [exact Hreach|]. split; [| split].
        -- exists dimension. split.
           ++ now apply structure_array_found_inv.
           ++ now apply String.eqb_eq.
        -- exact Hu.
        -- now apply standard_test_passed.
      * exists attribute. split.
        -- now apply structure_array_found_inv.
        -- now apply String.eqb_neq.
    + intros (Hreach & attribute & Ha & Hid).
      rewrite (is_compatible_from_attribute ntField pv Hreach).
      rewrite (structure_array_found pv _ _ Ha).
      apply String.eqb_neq in Hid. now rewrite Hid.
  - destruct (is_compatible_false_or_reaches_dimension ntField pv)
      as [-> | Hreach]; [discriminate|].
    rewrite (is_compatible_from_dimension ntField pv Hreach).
    repeat match goal with
           | |- context [match ?x with _ => _ end] => destruct x
           end; discriminate.
Qed.

(** X14.  [NTNDArray::is_compatible] reads twelve lookups in the instance
    and nothing else: two instances that give the same sub-field for
    value, descriptor, alarm, timeStamp, display, compressedSize,
    uncompressedSize, codec, dimension, uniqueId, dataTimeStamp and
    attribute get the same outcome, whatever the ids of their schemas and
    their other sub-fields; the id [narrow] tests plays no part. *)
Theorem is_compatible_reads_only_inspected_names
    (ntField : NTField.t) (pv pv' : PVStructure) :
  (forall n, n ∈ ndarray_inspected_names -> getSubField pv n = getSubField pv' n) ->
  NTNDArray.is_compatible ntField (Some pv)
  = NTNDArray.is_compatible ntField (Some pv').
Proof.
  intros H.
  unfold NTNDArray.is_compatible, getSubField_as, getSubField_PVStructure,
    getSubField_PVStructureArray.
  repeat match goal with
         | |- context [getSubField pv ?n] =>
             rewrite (H n) by (unfold ndarray_inspected_names; repeat constructor)
         end.
  reflexivity.
Qed.

Lemma is_compatible_reads_only_inspected_names_witness :
  NTNDArray.is_compatible sample_ntField
    (Some (sample_ndarray NTNDArrayBuilder.ntAttrStr))
  = NTNDArray.is_compatible sample_ntField
      (Some (mkPVStructure
               (mkStructure "structure"
                  (("comment", Scalar pvString)
                   :: getMembers (getStructure
                        (sample_ndarray NTNDArrayBuilder.ntAttrStr)))))).
Proof.
  apply (is_compatible_reads_only_inspected_names sample_ntField).
  intros n Hn. unfold ndarray_inspected_names in Hn.
  repeat (apply elem_of_cons in Hn as [-> | Hn]; [reflexivity|]).
  now apply elem_of_nil in Hn.
Defined.

(** ** The getters of the NTNDArray wrapper *)

(** X15.  On the wrapper [create()] returns, the getters of the eight
    mandatory fields yield those fields, and [getDescriptor],
    [getTimeStamp], [getAlarm] and [getDisplay] yield a handle exactly when
    the flag of their field is set in the builder, provided the field
    names are distinct and not empty and no extra field is null or takes
    the name of an optional field. *)
Theorem NTNDArray_created_getters
    (standardField : StandardField.t) (naming : Naming.t)
    (b : NTNDArrayBuilder.t) (extras : list (string * Field)) :
  NTNDArrayBuilder.extraFieldNames b = map fst extras ->
  NTNDArrayBuilder.extraFields b = map (fun e => Some (snd e)) extras ->
  well_named (ndarray_members standardField naming b extras) ->
  (forall n, n ∈ ndarray_optional_names -> lookup_field n extras = None) ->
  exists w,
    NTNDArray.create standardField naming b = (Ret (Some w), b)
    /\ NTNDArray.getValue w = Ret (Some (ndarray_value naming))
    /\ NTNDArray.getCodec w = Ret (Some (StructureField (ndarray_codec naming)))
    /\ NTNDArray.getCompressedDataSize w = Ret (Some (Scalar pvLong))
    /\ NTNDArray.getUncompressedDataSize w = Ret (Some (Scalar pvLong))
    /\ NTNDArray.getDimension w = Ret (Some (StructureArray ndarray_dimension))
    /\ NTNDArray.getDataTimeStamp w
       = Ret (Some (StructureField (StandardField.timeStamp standardField)))
    /\ NTNDArray.getAttribute w
       = Ret (Some (StructureArray (ndarray_attribute naming)))
    /\ NTNDArray.getDescriptor w
       = Ret (handle_if (NTNDArrayBuilder.descriptor b) (Scalar pvString))
    /\ NTNDArray.getTimeStamp w
       = Ret (handle_if (NTNDArrayBuilder.timeStamp b)
                (StructureField (StandardField.timeStamp standardField)))
    /\ NTNDArray.getAlarm w
       = Ret (handle_if (NTNDArrayBuilder.alarm b)
                (StructureField (StandardField.alarm standardField)))
    /\ NTNDArray.getDisplay w
       = Ret (handle_if (NTNDArrayBuilder.display b)
                (StructureField (StandardField.display standardField))).
Proof.
  intros Hnames Hfields _ Hextras.
  set (pv := mkPVStructure
               (mkStructure NTNDArrayBuilder.URI
                  (ndarray_members standardField naming b extras))).
  exists (NTNDArray.Build (Some pv)). split.
  - unfold NTNDArray.create, NTNDArrayBuilder.createPVStructure,
      NTNDArrayBuilder.createStructure.
    now rewrite (build_members standardField naming b extras Hnames Hfields).
  - destruct (created_mandatory_lookups standardField naming b extras)
      as (Hv & Hc & Hcs & Hus & Hd & Hu & Hdt & Ha).
    destruct (created_optional_lookups standardField naming b extras Hextras)
      as (Hde & Hts & Hal & Hdi).
    fold pv in Hv, Hc, Hcs, Hus, Hd, Hu, Hdt, Ha, Hde, Hts, Hal, Hdi.
    unfold NTNDArray.getValue, NTNDArray.getCodec,
      NTNDArray.getCompressedDataSize, NTNDArray.getUncompressedDataSize,
      NTNDArray.getDimension, NTNDArray.getDataTimeStamp,
      NTNDArray.getAttribute, NTNDArray.getDescriptor, NTNDArray.getTimeStamp,
      NTNDArray.getAlarm, NTNDArray.getDisplay, NTNDArray.getter,
      getSubField_as.
    cbn [NTNDArray.pvNTNDArray].
    rewrite Hv, Hc, Hcs, Hus, Hd, Hdt, Ha, Hde, Hts, Hal, Hdi.
    unfold handle_if.
    repeat split;
      match goal with
      | |- context [if ?flag then _ else _] => now destruct flag
      end.
Qed.

Lemma NTNDArray_created_getters_witness :
  exists w,
    NTNDArray.create sample_standardField sample_naming sample_ndarray_builder
    = (Ret (Some w), sample_ndarray_builder)
    /\ NTNDArray.getDescriptor w = Ret (Some (Scalar pvString))
    /\ NTNDArray.getTimeStamp w = Ret None
    /\ NTNDArray.getAlarm w = Ret (Some (StructureField sample_alarm)).
Proof.
  destruct (NTNDArray_created_getters sample_standardField sample_naming
              sample_ndarray_builder [("comment", Scalar pvString)])
    as (w & Hw & _ & _ & _ & _ & _ & _ & _ & Hde & Hts & Hal & _).
  - reflexivity.
  - reflexivity.
  - run_well_named.
  - intros n Hn. unfold ndarray_optional_names in Hn.
    repeat (apply elem_of_cons in Hn as [-> | Hn]; [reflexivity|]).
    now apply elem_of_nil in Hn.
  - exists w. split; [exact Hw|]. split; [exact Hde|]. split; [exact Hts|].
    exact Hal.
Defined.

(** X16.  A wrapper [narrow] returns holds a non-null instance whose
    schema carries the NTNDArray id: [getPVStructure] returns that
    instance, each of the eleven sub-field getters returns the sub-field
    of its name cast to its class, and the three attach functions return.
    [narrow_unsafe] wraps a null pointer too: on that wrapper
    [getPVStructure] returns the null pointer it stores, without calling
    through it, while each of the eleven sub-field getters and the three
    attach functions calls through the null pointer. *)
Theorem NTNDArray_getters_after_narrow
    (structure : PVStructurePtr) (w : NTNDArray.t) (attach : PVField -> bool) :
  (NTNDArray.narrow structure = Ret (Some w) ->
   exists pv,
     structure = Some pv
     /\ NTNDArray.getPVStructure w = Some pv
     /\ getID (getStructure pv) = "uri:ev4:nt/2014/pwd:NTNDArray"
     /\ NTNDArray.getValue w = Ret (getSubField_as PVUnion_c pv "value")
     /\ NTNDArray.getCodec w = Ret (getSubField_as PVStructure_c pv "codec")
     /\ NTNDArray.getCompressedDataSize w
        = Ret (getSubField_as PVLong pv "compressedSize")
     /\ NTNDArray.getUncompressedDataSize w
        = Ret (getSubField_as PVLong pv "uncompressedSize")
     /\ NTNDArray.getAttribute w
        = Ret (getSubField_as PVStructureArray_c pv "attribute")
     /\ NTNDArray.getDimension w
        = Ret (getSubField_as PVStructureArray_c pv "dimension")
     /\ NTNDArray.getDataTimeStamp w
        = Ret (getSubField_as PVStructure_c pv "dataTimeStamp")
     /\ NTNDArray.getDescriptor w = Ret (getSubField_as PVString pv "descriptor")
     /\ NTNDArray.getTimeStamp w
        = Ret (getSubField_as PVStructure_c pv "timeStamp")
     /\ NTNDArray.getAlarm w = Ret (getSubField_as PVStructure_c pv "alarm")
     /\ NTNDArray.getDisplay w = Ret (getSubField_as PVStructure_c pv "display")
     /\ returned (NTNDArray.attachTimeStamp attach w)
     /\ returned (NTNDArray.attachDataTimeStamp attach w)
     /\ returned (NTNDArray.attachAlarm attach w))
  /\ (exists w0,
         NTNDArray.narrow_unsafe None = Some w0
         /\ NTNDArray.getPVStructure w0 = None
         /\ NTNDArray.getValue w0 = NullDereference
         /\ NTNDArray.getCodec w0 = NullDereference
         /\ NTNDArray.getCompressedDataSize w0 = NullDereference
         /\ NTNDArray.getUncompressedDataSize w0 = NullDereference
         /\ NTNDArray.getAttribute w0 = NullDereference
         /\ NTNDArray.getDimension w0 = NullDereference
         /\ NTNDArray.getDataTimeStamp w0 = NullDereference
         /\ NTNDArray.getDescriptor w0 = NullDereference
         /\ NTNDArray.getTimeStamp w0 = NullDereference
         /\ NTNDArray.getAlarm w0 = NullDereference
         /\ NTNDArray.getDisplay w0 = NullDereference
         /\ NTNDArray.attachTimeStamp attach w0 = NullDereference
         /\ NTNDArray.attachDataTimeStamp attach w0 = NullDereference
         /\ NTNDArray.attachAlarm attach w0 = NullDereference).
Proof.
  split.
  - unfold NTNDArray.narrow, NTNDArray.is_a, NTNDArray.narrow_unsafe.
    destruct structure as [pv|]; [| discriminate]. simpl.
    destruct (String.eqb (getID (getStructure pv)) NTNDArray.URI) eqn:E;
      simpl; [| discriminate].
    intros [= <-]. exists pv.
    split; [reflexivity|]. split; [reflexivity|].
    split; [now apply String.eqb_eq in E|].
    repeat (split; [reflexivity|]).
    unfold NTNDArray.attachTimeStamp, NTNDArray.attachDataTimeStamp,
      NTNDArray.attachAlarm, NTNDArray.attach_to, NTNDArray.getTimeStamp,
      NTNDArray.getDataTimeStamp, NTNDArray.getAlarm, NTNDArray.getter.
    cbn [NTNDArray.pvNTNDArray bind].
    repeat split;
      match goal with
      | |- returned (match ?h with _ => _ end) =>
          destruct h; eexists; reflexivity
      end.
  - exists (NTNDArray.Build None). repeat split.
Qed.

Lemma NTNDArray_getters_after_narrow_witness :
  NTNDArray.narrow (Some sample_id_only)
  = Ret (Some (NTNDArray.Build (Some sample_id_only)))
  /\ NTNDArray.getPVStructure (NTNDArray.Build (Some sample_id_only))
     = Some sample_id_only
  /\ NTNDArray.getTimeStamp (NTNDArray.Build (Some sample_id_only)) = Ret None
  /\ returned (NTNDArray.attachTimeStamp sample_attach
                 (NTNDArray.Build (Some sample_id_only))).
Proof.
  assert (Hnarrow : NTNDArray.narrow (Some sample_id_only)
                    = Ret (Some (NTNDArray.Build (Some sample_id_only))))
    by reflexivity.
  destruct (proj1 (NTNDArray_getters_after_narrow (Some sample_id_only)
                     (NTNDArray.Build (Some sample_id_only))
                     sample_attach) Hnarrow)
    as (pv & Hpv & Hget & _ & _ & _ & _ & _ & _ & _ & _ & _ & Hts & _ & _
        & Hattach & _).
  injection Hpv as <-.
  split; [exact Hnarrow|]. split; [exact Hget|].
  split; [exact Hts | exact Hattach].
Defined.

(** ** Extra fields that clash with an optional field *)

Lemma required_type_names (name : string) (required : Field) :
  required_type name = Some required ->
  name ∈ ["severity"; "status"; "message"; "secondsPastEpoch"; "nanoseconds";
          "userTag"; "descriptor"].
Proof.
  unfold required_type.
  repeat match goal with
         | |- context [String.eqb name ?n] =>
             destruct (String.eqb_spec name n) as [-> | _];
               [intros _; repeat constructor |]
         end.
  discriminate.
Qed.

(** X17.  When, among field names that are distinct and not empty, an
    extra field takes the name of one of [severity], [status], [message],
    [secondsPastEpoch], [nanoseconds], [userTag] and [descriptor] while the
    flag of that name is clear, and its type is not the one required under
    the name, the schema [createStructure()]
    returns is not compatible and [wrap] of an instance of it is empty. *)
Theorem clashing_extra_field_is_rejected
    (standardField : StandardField.t) (ntField : NTField.t)
    (b : NTScalarMultiChannelBuilder.t) (extras : list (string * Field))
    (name : string) (required f : Field) :
  NTScalarMultiChannelBuilder.extraFieldNames b = map fst extras ->
  NTScalarMultiChannelBuilder.extraFields b = map (fun e => Some (snd e)) extras ->
  well_named (expected_members standardField b extras) ->
  required_type name = Some required ->
  flag_of name b = false ->
  lookup_field name extras = Some f ->
  f <> required ->
  exists st,
    NTScalarMultiChannelBuilder.createStructure standardField b
    = (Ret st, NTScalarMultiChannelBuilder.new)
    /\ NTScalarMultiChannel.isCompatible ntField (Some st) = false
    /\ NTScalarMultiChannel.wrap ntField (Some (mkPVStructure st)) = Ret None.
Proof.
  intros Hnames Hfields _ Hreq Hflag Hextra Hne.
  eexists. split;
    [apply (createStructure_members standardField b extras Hnames Hfields)|].
  assert (Hc : NTScalarMultiChannel.isCompatible ntField
                 (Some (mkStructure NTScalarMultiChannelBuilder.URI
                          (expected_members standardField b extras))) = false).
  { apply isCompatible_optional_mismatch.
    unfold optional_fields_match, optional_matches.
    pose proof (required_type_names name required Hreq) as Hin.
    repeat (apply elem_of_cons in Hin as [-> | Hin];
            [ injection Hreq as <-; cbn in Hflag;
              intros (H1 & H2 & H3 & H4 & H5 & H6 & H7 & _);
              apply Hne;
              match goal with
              | Hx : lookup_field ?n extras = Some _,
                H : forall f0, getField _ ?n = Some f0 -> _ |- _ => apply H
              end;
              unfold getField, expected_members; simpl getMembers;
              cbn [app lookup_field String.eqb Ascii.eqb Bool.eqb];
              repeat (rewrite lookup_optional_field_other by reflexivity);
              rewrite lookup_optional_field_same, Hflag;
              repeat (rewrite lookup_optional_field_other by reflexivity);
              exact Hextra
            |]).
    now apply elem_of_nil in Hin. }
  split; [exact Hc|].
  unfold NTScalarMultiChannel.wrap, NTScalarMultiChannel.isCompatible_pv.
  simpl getStructure. now rewrite Hc.
Qed.

Lemma clashing_extra_field_is_rejected_witness :
  exists st,
    NTScalarMultiChannelBuilder.createStructure sample_standardField
      sample_builder_clashing
    = (Ret st, NTScalarMultiChannelBuilder.new)
    /\ NTScalarMultiChannel.isCompatible sample_ntField (Some st) = false
    /\ NTScalarMultiChannel.wrap sample_ntField (Some (mkPVStructure st))
       = Ret None.
Proof.
  apply (clashing_extra_field_is_rejected sample_standardField sample_ntField
           sample_builder_clashing [("severity", Scalar pvDouble)]
           "severity" (ScalarArray pvInt) (Scalar pvDouble));
    try reflexivity; [run_well_named | discriminate].
Defined.
